(** * typed_json: a shallow embedding of [TypedJSON] and its properties

    The development follows [src/typed_json.py] and
    [src/deserialize_exception.py].  Python objects are represented by the
    inductive [value]; a target type by [pytype]; raised exceptions by [exn];
    a call either returns, raises, or exhausts the recursion budget of the
    model ([outcome]). *)

From Stdlib Require Import List String Ascii ZArith Bool Lia Arith Permutation.
From Stdlib Require Import Sorted.
Import ListNotations.
Open Scope string_scope.
Set Warnings "-register-all".

(** ** Python values *)

(** Runtime objects that the program touches.  A float is kept as its
    IEEE-754 bit pattern, since only equality of floats matters here.  An
    [int] is unbounded: the limit CPython 3.11 puts on the conversion
    between [int] and decimal text ([sys.set_int_max_str_digits], 4300
    digits unless changed) is taken as switched off.
    [VDict] is a [dict] with string keys in insertion order.  [VMethod] is
    any callable attribute (bound method, builtin method, function).
    [VProperty] is a [property] object itself, not the value it computes;
    [getattr] on an instance never returns one for a property of its class,
    it returns the computed value.  [VInst] is an
    instance of a user class: the class name, the attributes that
    [getattr] finds on the class (methods, class-level data, dunder
    members; for a property the value its getter returned) and the
    instance's own [__dict__].  An object one of whose getters raises is
    not represented. *)
Inductive value : Type :=
| VNone
| VBool (b : bool)
| VInt (z : Z)
| VFloat (bits : Z)
| VStr (s : string)
| VList (l : list value)
| VDict (kvs : list (string * value))
| VMethod
| VProperty
| VInst (cname : string) (class_attrs : list (string * value))
        (inst_dict : list (string * value)).

(** ** JSON documents *)

(** The syntax tree of a well-formed JSON text that [json.loads] accepts.
    [JFloat] is a number token read as a [float], or one of the tokens
    [NaN], [Infinity] and [-Infinity]. *)
Inductive json : Type :=
| JNull
| JBool (b : bool)
| JInt (z : Z)
| JFloat (bits : Z)
| JStr (s : string)
| JArr (l : list json)
| JObj (kvs : list (string * json)).

(** ** Types and constructor signatures *)

(** What [TypedJSON(typ)] receives as [typ], and what a parameter
    annotation can be: one of the builtin types, [inspect._empty] (a
    parameter without annotation) or a user class.  A class is described by
    its name, the names [inspect.getmembers(cls)] lists, the parameters of
    [inspect.signature(cls.__init__)] (with the receiver) and the attributes
    an instance inherits from the class: methods and class-level data.  A
    class that defines properties is not described this way, since what
    [getattr] returns for a property is computed by the getter from the
    instance. *)
Inductive pytype : Type :=
| T_int | T_float | T_bool | T_str | T_list | T_empty
| T_class (c : pyclass)
with pyclass : Type :=
| MkClass (name : string) (member_names : list string)
          (init_params : list param) (class_attrs : list (string * value))
with param : Type :=
| MkParam (pname : string) (annotation : pytype) (default : option value).

Definition cls_name (c : pyclass) : string :=
  match c with MkClass n _ _ _ => n end.
Definition cls_member_names (c : pyclass) : list string :=
  match c with MkClass _ ms _ _ => ms end.
Definition cls_init_params (c : pyclass) : list param :=
  match c with MkClass _ _ ps _ => ps end.
Definition cls_class_attrs (c : pyclass) : list (string * value) :=
  match c with MkClass _ _ _ ca => ca end.

Definition param_name (p : param) : string :=
  match p with MkParam n _ _ => n end.
Definition param_annotation (p : param) : pytype :=
  match p with MkParam _ a _ => a end.
(** [None] stands for [inspect._empty]: the parameter has no default. *)
Definition param_default (p : param) : option value :=
  match p with MkParam _ _ d => d end.

(** ** Exceptions *)

(** The text of a [DeserializeException] is an f-string; it is kept as the
    template together with the interpolated objects. *)
Inductive message : Type :=
| MsgNoInit (typ : pytype)
    (* "Type {typ.__class__.__name__} does not have one init method.":
       the text names the class of [typ]; the type itself is kept. *)
| MsgCast (v : value) (annotation : pytype) (inner : message)
    (* "Value {value} cannot be cast as {annotation}: {stack_exception}" *)
| MsgMissing (parameter_name : string).
    (* "Parameter {..} could not be found in JSON and has no default value" *)

(** [DeserializeException] carries its message and, when raised with
    [raise ... from e], the exception [e] as [__cause__].  The others are
    builtin exceptions. *)
Inductive exn : Type :=
| DeserializeException (msg : message) (cause : option exn)
| TypeError (what : string)
| KeyError (key : string)
| AttributeError (attr : string).

(** ** Outcome of a call *)

Inductive outcome (A : Type) : Type :=
| Ok (a : A)
| Raise (e : exn)
| OutOfFuel.
Arguments Ok {A} a.
Arguments Raise {A} e.
Arguments OutOfFuel {A}.

Definition bind {A B} (m : outcome A) (k : A -> outcome B) : outcome B :=
  match m with
  | Ok a => k a
  | Raise e => Raise e
  | OutOfFuel => OutOfFuel
  end.

Notation "x <- m ;; k" := (bind m (fun x => k))
  (at level 61, m at next level, right associativity).
Notation "m ;;; k" := (bind m (fun _ => k))
  (at level 61, right associativity).

(** ** Dictionaries, strings and sorting *)

(** [d[k]] for a dict whose keys are distinct. *)
Fixpoint dict_get (k : string) (kvs : list (string * value)) : option value :=
  match kvs with
  | [] => None
  | (k', v) :: r => if String.eqb k k' then Some v else dict_get k r
  end.

Definition dict_mem (k : string) (kvs : list (string * value)) : bool :=
  match dict_get k kvs with Some _ => true | None => false end.

(** [d[k] = v]: an existing key keeps its position, a new key is appended. *)
Fixpoint dict_set (k : string) (v : value) (kvs : list (string * value))
  : list (string * value) :=
  match kvs with
  | [] => [(k, v)]
  | (k', v') :: r =>
      if String.eqb k k' then (k, v) :: r else (k', v') :: dict_set k v r
  end.

(** [needle in hay] on two strings: substring test. *)
Fixpoint contains (needle hay : string) : bool :=
  String.prefix needle hay ||
  match hay with
  | EmptyString => false
  | String _ hay' => contains needle hay'
  end.

(** [x in l] where [x] is a string: some element equals [x], and only a
    string equals a string. *)
Definition list_has_str (x : string) (l : list value) : bool :=
  existsb (fun e => match e with VStr s => String.eqb x s | _ => false end) l.

(** [results.sort(key=lambda pair: pair[0])] at the end of
    [inspect.getmembers]: a stable sort on the name. *)
Fixpoint insert_by_name (x : string * value) (l : list (string * value))
  : list (string * value) :=
  match l with
  | [] => [x]
  | y :: r =>
      if String.leb (fst x) (fst y) then x :: y :: r
      else y :: insert_by_name x r
  end.

Definition sort_by_name (l : list (string * value)) : list (string * value) :=
  fold_right insert_by_name [] l.

(** ** The JSON codec *)

(** The bit pattern of [float('nan')], the value [json.loads] returns for
    the token [NaN]. *)
Definition nan_bits : Z := 9221120237041090560.

(** The exponent field is all ones and the fraction is not zero. *)
Definition is_nan (bits : Z) : bool :=
  (Z.land (Z.shiftr bits 52) 2047 =? 2047)%Z
  && negb (Z.land bits 4503599627370495 =? 0)%Z.

(** The float a number token stands for once written and read: every NaN
    is written as the one token [NaN], every other float as a text that
    reads back as the same float. *)
Definition written_float (bits : Z) : Z :=
  if is_nan bits then nan_bits else bits.

(** [json.loads]: total on well-formed text.  When an object repeats a key
    the last value is kept. *)
Fixpoint json_loads (j : json) : value :=
  match j with
  | JNull => VNone
  | JBool b => VBool b
  | JInt z => VInt z
  | JFloat f => VFloat (written_float f)
  | JStr s => VStr s
  | JArr l => VList (map json_loads l)
  | JObj kvs =>
      VDict (fold_left
               (fun d kv => dict_set (fst kv) (json_loads (snd kv)) d) kvs [])
  end.

Definition not_serializable : exn :=
  TypeError "Object is not JSON serializable".

(** [json.dumps]: raises [TypeError] on an object that is not one of the
    JSON kinds. *)
Fixpoint json_dumps (v : value) : outcome json :=
  match v with
  | VNone => Ok JNull
  | VBool b => Ok (JBool b)
  | VInt z => Ok (JInt z)
  | VFloat f => Ok (JFloat (written_float f))
  | VStr s => Ok (JStr s)
  | VList l =>
      js <- (fix elems (l : list value) : outcome (list json) :=
               match l with
               | [] => Ok []
               | x :: r => j <- json_dumps x ;; js <- elems r ;; Ok (j :: js)
               end) l ;;
      Ok (JArr js)
  | VDict kvs =>
      js <- (fix items (kvs : list (string * value))
               : outcome (list (string * json)) :=
               match kvs with
               | [] => Ok []
               | (k, x) :: r =>
                   j <- json_dumps x ;; js <- items r ;; Ok ((k, j) :: js)
               end) kvs ;;
      Ok (JObj js)
  | VMethod => Raise not_serializable
  | VProperty => Raise not_serializable
  | VInst _ _ _ => Raise not_serializable
  end.

(** The two loops of [json_dumps], by name. *)
Fixpoint dumps_elems (l : list value) : outcome (list json) :=
  match l with
  | [] => Ok []
  | x :: r => j <- json_dumps x ;; js <- dumps_elems r ;; Ok (j :: js)
  end.

Fixpoint dumps_items (kvs : list (string * value))
  : outcome (list (string * json)) :=
  match kvs with
  | [] => Ok []
  | (k, x) :: r =>
      j <- json_dumps x ;; js <- dumps_items r ;; Ok ((k, j) :: js)
  end.

(** ** Reflection *)

(** A member of a type as [inspect.getmembers(typ)] pairs it with its name:
    a function with its signature, or anything else. *)
Inductive member : Type :=
| MFunction (params : list param)
| MOther.

(** [inspect.signature(int.__init__)] and the like: the slot wrapper
    [(self, /, *args, **kwargs)], none annotated, none with a default. *)
Definition slot_wrapper_signature : list param :=
  [MkParam "self" T_empty None; MkParam "args" T_empty None;
   MkParam "kwargs" T_empty None].

(** [inspect.signature(typ.__init__)] *)
Definition init_signature (typ : pytype) : list param :=
  match typ with
  | T_class c => cls_init_params c
  | _ => slot_wrapper_signature
  end.

(** Dunder members every object has (an excerpt: the program only looks at
    their names). *)
Definition object_dunders : list string :=
  ["__class__"; "__doc__"; "__eq__"; "__init__"; "__repr__"; "__str__"].

Definition member_names (typ : pytype) : list string :=
  match typ with
  | T_class c => cls_member_names c
  | _ => object_dunders
  end.

(** [inspect.getmembers(typ)]: the member called [__init__] is
    [typ.__init__]. *)
Definition getmembers_type (typ : pytype) : list (string * member) :=
  map (fun n => (n, if String.eqb n "__init__"
                    then MFunction (init_signature typ) else MOther))
      (member_names typ).

(** [inspect.signature(f)] *)
Definition signature (f : member) : outcome (list param) :=
  match f with
  | MFunction ps => Ok ps
  | MOther => Raise (TypeError "not a callable object")
  end.

Definition methods (names : list string) : list (string * value) :=
  map (fun n => (n, VMethod)) names.

Definition int_members (z : Z) : list (string * value) :=
  [("denominator", VInt 1); ("imag", VInt 0); ("numerator", VInt z);
   ("real", VInt z)] ++
  methods ["as_integer_ratio"; "bit_count"; "bit_length"; "conjugate";
           "from_bytes"; "to_bytes"].

Definition str_method_names : list string :=
  ["capitalize"; "casefold"; "center"; "count"; "encode"; "endswith";
   "expandtabs"; "find"; "format"; "format_map"; "index"; "isalnum";
   "isalpha"; "isascii"; "isdecimal"; "isdigit"; "isidentifier"; "islower";
   "isnumeric"; "isprintable"; "isspace"; "istitle"; "isupper"; "join";
   "ljust"; "lower"; "lstrip"; "maketrans"; "partition"; "removeprefix";
   "removesuffix"; "replace"; "rfind"; "rindex"; "rjust"; "rpartition";
   "rsplit"; "rstrip"; "split"; "splitlines"; "startswith"; "strip";
   "swapcase"; "title"; "translate"; "upper"; "zfill"].

(** [dir(obj)] with the value [getattr] gives for each name, before
    sorting.  For an instance: its own [__dict__], then what it inherits
    from the class and does not shadow.  For builtin objects: the public
    members of CPython 3.11 and [object_dunders]. *)
Definition dir_entries (obj : value) : list (string * value) :=
  match obj with
  | VInst _ ca d =>
      d ++ filter (fun kv => negb (dict_mem (fst kv) d)) ca
  | VNone | VMethod => methods object_dunders
  | VProperty =>
      methods object_dunders ++
      [("fdel", VNone); ("fget", VMethod); ("fset", VNone)] ++
      methods ["deleter"; "getter"; "setter"]
  | VBool b => methods object_dunders ++ int_members (if b then 1 else 0)
  | VInt z => methods object_dunders ++ int_members z
  | VFloat f =>
      methods object_dunders ++
      [("imag", VFloat 0); ("real", VFloat f)] ++
      methods ["as_integer_ratio"; "conjugate"; "fromhex"; "hex";
               "is_integer"]
  | VStr _ => methods object_dunders ++ methods str_method_names
  | VList _ =>
      methods object_dunders ++
      methods ["append"; "clear"; "copy"; "count"; "extend"; "index";
               "insert"; "pop"; "remove"; "reverse"; "sort"]
  | VDict _ =>
      methods object_dunders ++
      methods ["clear"; "copy"; "fromkeys"; "get"; "items"; "keys"; "pop";
               "popitem"; "setdefault"; "update"; "values"]
  end.

(** [inspect.getmembers(obj)]: sorted by name. *)
Definition getmembers (obj : value) : list (string * value) :=
  sort_by_name (dir_entries obj).

Definition hasattr (obj : value) (name : string) : bool :=
  dict_mem name (getmembers obj).

Definition getattr (obj : value) (name : string) : outcome value :=
  match dict_get name (getmembers obj) with
  | Some v => Ok v
  | None => Raise (AttributeError name)
  end.

(** [isinstance(v, typ)]; [bool] is a subclass of [int]. *)
Definition isinstance (v : value) (typ : pytype) : bool :=
  match typ, v with
  | T_int, VInt _ | T_int, VBool _ => true
  | T_float, VFloat _ => true
  | T_bool, VBool _ => true
  | T_str, VStr _ => true
  | T_list, VList _ => true
  | T_class c, VInst n _ _ => String.eqb n (cls_name c)
  | T_empty, VInst n _ _ => String.eqb n "_empty"
  | _, _ => false
  end.

(** [isinstance(v, property)] *)
Definition is_property (v : value) : bool :=
  match v with VProperty => true | _ => false end.

(** [name in container] *)
Definition py_in (name : string) (container : value) : outcome bool :=
  match container with
  | VDict kvs => Ok (dict_mem name kvs)
  | VStr s => Ok (contains name s)
  | VList l => Ok (list_has_str name l)
  | _ => Raise (TypeError "argument is not iterable")
  end.

(** [container[name]] *)
Definition py_getitem (container : value) (name : string) : outcome value :=
  match container with
  | VDict kvs =>
      match dict_get name kvs with
      | Some v => Ok v
      | None => Raise (KeyError name)
      end
  | VStr _ | VList _ => Raise (TypeError "indices must be integers")
  | _ => Raise (TypeError "object is not subscriptable")
  end.

(** ** Calling a type *)

(** Binding of keyword arguments to the parameters after the receiver:
    every keyword names a parameter, and every parameter gets its keyword
    or its default. *)
Fixpoint bind_arguments (fields : list param) (kwargs : list (string * value))
  : option (list (string * value)) :=
  match fields with
  | [] => Some []
  | p :: r =>
      match (match dict_get (param_name p) kwargs with
             | Some v => Some v
             | None => param_default p
             end), bind_arguments r kwargs with
      | Some v, Some bound => Some ((param_name p, v) :: bound)
      | _, _ => None
      end
  end.

Definition known_keywords (fields : list param)
           (kwargs : list (string * value)) : bool :=
  forallb (fun kv =>
             existsb (fun p => String.eqb (fst kv) (param_name p)) fields)
          kwargs.

Definition bad_call : exn := TypeError "bad arguments in call".

(** [cls] called with keyword arguments only.  The body of [__init__] is
    user code that is not part of the library; a user class is taken to be
    a record: the first parameter of its [__init__] is the receiver, and
    the body stores every other argument in the attribute of the
    parameter's name, in declaration order, and does nothing else (it does
    not raise).  The call itself raises [TypeError] when the keywords do
    not fit the signature.  A builtin type takes no keyword at all. *)
Definition instantiate (cls : pytype) (kwargs : list (string * value))
  : outcome value :=
  match cls with
  | T_class c =>
      match cls_init_params c with
      | [] => Raise bad_call
      | _ :: fields =>
          if known_keywords fields kwargs then
            match bind_arguments fields kwargs with
            | Some bound => Ok (VInst (cls_name c) (cls_class_attrs c) bound)
            | None => Raise bad_call
            end
          else Raise bad_call
      end
  | _ =>
      match kwargs, cls with
      | [], T_int => Ok (VInt 0)
      | [], T_float => Ok (VFloat 0)
      | [], T_bool => Ok (VBool false)
      | [], T_str => Ok (VStr "")
      | [], T_list => Ok (VList [])
      | [], _ => Ok (VInst "_empty" (methods object_dunders) [])
      | _ :: _, _ => Raise bad_call
      end
  end.

(** ** TypedJSON *)

(** A [for] loop over the parameters whose body may raise. *)
Fixpoint for_params {S : Type} (body : S -> param -> outcome S)
         (ps : list param) (s : S) : outcome S :=
  match ps with
  | [] => Ok s
  | p :: r => s' <- body s p ;; for_params body r s'
  end.

Definition is_primitive_type (typ : pytype) : bool :=
  match typ with
  | T_int | T_float | T_bool | T_str | T_list => true
  | _ => false
  end.

Definition is_primitive_value (v : value) : bool :=
  match v with
  | VInt _ | VFloat _ | VBool _ | VStr _ | VList _ => true
  | _ => false
  end.

Section Methods.

(** The recursive calls [TypedJSON(t).load(s)] and
    [TypedJSON(type(v)).dumps(v)], tied below. *)
Variable load_rec : pytype -> json -> outcome value.
Variable dumps_rec : value -> outcome json.

(** [_fetch_initializer_members] *)
Definition _fetch_initializer_members (typ : pytype)
           (class_members : list (string * member))
  : outcome (list (string * member)) :=
  let initializer_members :=
    filter (fun nm => String.eqb (fst nm) "__init__") class_members in
  if negb (List.length initializer_members =? 1)%nat
  then Raise (DeserializeException (MsgNoInit typ) None)
  else Ok initializer_members.

(** [_verify_member_type] *)
Definition _verify_member_type (member : param) (v : value) : outcome unit :=
  if negb (isinstance v (param_annotation member)) then
    match (s <- json_dumps v ;; load_rec (param_annotation member) s) with
    | Ok _ => Ok tt
    | Raise (DeserializeException m c) =>
        Raise (DeserializeException
                 (MsgCast v (param_annotation member) m)
                 (Some (DeserializeException m c)))
    | Raise e => Raise e
    | OutOfFuel => OutOfFuel
    end
  else Ok tt.

(** [verify_members] *)
Definition verify_members (initializer : member) (json_str : json)
  : outcome unit :=
  let json_loaded_nv := json_loads json_str in
  initializer_signature <- signature initializer ;;
  for_params
    (fun _ parameter_obj =>
       let parameter_name := param_name parameter_obj in
       if String.eqb parameter_name "self" then Ok tt
       else
         present <- py_in parameter_name json_loaded_nv ;;
         if (present : bool) then
           v <- py_getitem json_loaded_nv parameter_name ;;
           _verify_member_type parameter_obj v
         else
           match param_default parameter_obj with
           | None =>
               Raise (DeserializeException (MsgMissing parameter_name) None)
           | Some _ => Ok tt
           end)
    initializer_signature tt.

(** [_fetch_init_and_verify_members] *)
Definition _fetch_init_and_verify_members (typ : pytype) (json_str : json)
  : outcome unit :=
  let class_members := getmembers_type typ in
  initializer_members <- _fetch_initializer_members typ class_members ;;
  match initializer_members with
  | (_, initializer) :: _ => verify_members initializer json_str
  | [] => Raise (TypeError "list index out of range")
  end.

(** [_deserialize] *)
Definition _deserialize (cls : pytype) (data : value) : outcome value :=
  let initializer_signature := init_signature cls in
  constructor_args <-
    for_params
      (fun constructor_args parameter_obj =>
         let parameter_name := param_name parameter_obj in
         if String.eqb parameter_name "self" then Ok constructor_args
         else
           present <- py_in parameter_name data ;;
           if (present : bool) then
             v <- py_getitem data parameter_name ;;
             if is_primitive_type (param_annotation parameter_obj) then
               Ok (dict_set parameter_name v constructor_args)
             else
               nested_json_str <- json_dumps v ;;
               nested_obj <-
                 load_rec (param_annotation parameter_obj) nested_json_str ;;
               Ok (dict_set parameter_name nested_obj constructor_args)
           else
             match param_default parameter_obj with
             | None =>
                 Raise (DeserializeException (MsgMissing parameter_name)
                                             None)
             | Some d => Ok (dict_set parameter_name d constructor_args)
             end)
      initializer_signature [] ;;
  instantiate cls constructor_args.

(** The body of [load]. *)
Definition load_body (typ : pytype) (json_str : json) : outcome value :=
  _fetch_init_and_verify_members typ json_str ;;;
  _deserialize typ (json_loads json_str).

(** A [for] loop over the members of an object. *)
Fixpoint for_members (body : list (string * value) -> string * value ->
                             outcome (list (string * value)))
         (ms : list (string * value)) (acc : list (string * value))
  : outcome (list (string * value)) :=
  match ms with
  | [] => Ok acc
  | m :: r => acc' <- body acc m ;; for_members body r acc'
  end.

(** The body of [_serialize]. *)
Definition _serialize_body (obj : value) : outcome json :=
  let class_members := getmembers obj in
  serialized_data <-
    for_members
      (fun serialized_data m =>
         let member_name := fst m in
         let member_obj := snd m in
         if String.prefix "__" member_name then Ok serialized_data
         else if is_property member_obj then Ok serialized_data
         else if hasattr obj member_name then
           member_value <- getattr obj member_name ;;
           if is_primitive_value member_value then
             Ok (dict_set member_name member_value serialized_data)
           else
             s <- dumps_rec member_value ;;
             Ok (dict_set member_name (json_loads s) serialized_data)
         else Ok serialized_data)
      class_members [] ;;
  json_dumps (VDict serialized_data).

End Methods.

(** The bodies of the two loops over the signature, by name. *)
Definition verify_step (load_rec : pytype -> json -> outcome value)
           (json_loaded_nv : value) (_ : unit) (parameter_obj : param)
  : outcome unit :=
  let parameter_name := param_name parameter_obj in
  if String.eqb parameter_name "self" then Ok tt
  else
    present <- py_in parameter_name json_loaded_nv ;;
    if (present : bool) then
      v <- py_getitem json_loaded_nv parameter_name ;;
      _verify_member_type load_rec parameter_obj v
    else
      match param_default parameter_obj with
      | None => Raise (DeserializeException (MsgMissing parameter_name) None)
      | Some _ => Ok tt
      end.

Definition deserialize_step (load_rec : pytype -> json -> outcome value)
           (data : value) (constructor_args : list (string * value))
           (parameter_obj : param) : outcome (list (string * value)) :=
  let parameter_name := param_name parameter_obj in
  if String.eqb parameter_name "self" then Ok constructor_args
  else
    present <- py_in parameter_name data ;;
    if (present : bool) then
      v <- py_getitem data parameter_name ;;
      if is_primitive_type (param_annotation parameter_obj) then
        Ok (dict_set parameter_name v constructor_args)
      else
        nested_json_str <- json_dumps v ;;
        nested_obj <-
          load_rec (param_annotation parameter_obj) nested_json_str ;;
        Ok (dict_set parameter_name nested_obj constructor_args)
    else
      match param_default parameter_obj with
      | None => Raise (DeserializeException (MsgMissing parameter_name) None)
      | Some d => Ok (dict_set parameter_name d constructor_args)
      end.

(** ** Tying the recursion *)

(** Every nested [TypedJSON(t).load(s)] works on a strict sub-document of
    the JSON text and every nested [dumps] on an attribute of the object,
    so the calls are unfolded to a depth given by the input. *)
Fixpoint load_fuel (n : nat) (typ : pytype) (json_str : json)
  : outcome value :=
  match n with
  | O => OutOfFuel
  | S n' => load_body (load_fuel n') typ json_str
  end.

Fixpoint _serialize (n : nat) (obj : value) : outcome json :=
  match n with
  | O => OutOfFuel
  | S n' => _serialize_body (_serialize n') obj
  end.

Fixpoint json_depth (j : json) : nat :=
  match j with
  | JArr l => S (list_max (map json_depth l))
  | JObj kvs => S (list_max (map (fun kv => json_depth (snd kv)) kvs))
  | _ => 0
  end.

Fixpoint value_depth (v : value) : nat :=
  match v with
  | VList l => S (list_max (map value_depth l))
  | VDict kvs => S (list_max (map (fun kv => value_depth (snd kv)) kvs))
  | VInst _ ca d =>
      S (Nat.max (list_max (map (fun kv => value_depth (snd kv)) ca))
                 (list_max (map (fun kv => value_depth (snd kv)) d)))
  | _ => 0
  end.

(** [TypedJSON(typ).load(json_str)] *)
Definition load (typ : pytype) (json_str : json) : outcome value :=
  load_fuel (S (json_depth json_str)) typ json_str.

(** [TypedJSON(typ).dumps(obj)]: [typ] is not consulted. *)
Definition dumps (typ : pytype) (obj : value) : outcome json :=
  _serialize (S (S (value_depth obj))) obj.


(** ** Schema resolution *)

Definition is_init (nm : string * member) : bool :=
  String.eqb (fst nm) "__init__".

(** The number of members [_fetch_initializer_members] selects. *)
Definition initializer_count (typ : pytype) : nat :=
  List.length (filter is_init (getmembers_type typ)).

Definition schema_error (typ : pytype) : exn :=
  DeserializeException (MsgNoInit typ) None.

(** ** Observing exceptions *)

(** What a handler can tell about an exception without reading its text:
    its class and, for a [DeserializeException], its [__cause__]. *)
Inductive shape : Type :=
| ShDeserialize (cause : option shape)
| ShTypeError
| ShKeyError
| ShAttributeError.

Fixpoint erase_message (e : exn) : shape :=
  match e with
  | DeserializeException _ c =>
      ShDeserialize (match c with
                     | Some e' => Some (erase_message e')
                     | None => None
                     end)
  | TypeError _ => ShTypeError
  | KeyError _ => ShKeyError
  | AttributeError _ => ShAttributeError
  end.

Definition is_deserialize_exception (e : exn) : bool :=
  match e with DeserializeException _ _ => true | _ => false end.

(** The exception at the end of the [__cause__] chain. *)
Fixpoint root_cause (e : exn) : exn :=
  match e with
  | DeserializeException _ (Some e') => root_cause e'
  | _ => e
  end.

(** The [__cause__] chain, outermost first. *)
Fixpoint cause_chain (e : exn) : list exn :=
  e :: match e with
       | DeserializeException _ (Some e') => cause_chain e'
       | _ => []
       end.

(** The field names an exception's message mentions: only the
    missing-parameter message interpolates a name. *)
Definition named_field (e : exn) : option string :=
  match e with
  | DeserializeException (MsgMissing n) _ => Some n
  | _ => None
  end.

(** An exception as [load] builds it: only the cast message comes with a
    cause, and it quotes the message of that cause. *)
Fixpoint chained (e : exn) : Prop :=
  match e with
  | DeserializeException (MsgCast _ _ inner) (Some e') =>
      match e' with
      | DeserializeException m _ => inner = m
      | _ => False
      end /\ chained e'
  | DeserializeException (MsgCast _ _ _) None => False
  | DeserializeException _ (Some _) => False
  | _ => True
  end.

(** [k] is the name of a parameter of the initializer of [typ]. *)
Definition is_parameter_name (typ : pytype) (k : string) : bool :=
  existsb (fun p => String.eqb k (param_name p)) (init_signature typ).

(** The JSON object without the keys that name no parameter of [typ]. *)
Definition known_keys_only (typ : pytype) (kvs : list (string * json))
  : list (string * json) :=
  filter (fun kv => is_parameter_name typ (fst kv)) kvs.

(** ** JSON-shaped values *)

(** A value made of the JSON kinds only, with no key twice in a dict and
    no NaN other than [float('nan')]: exactly what [json.loads] can
    return. *)
Fixpoint plain (v : value) : Prop :=
  match v with
  | VNone | VBool _ | VInt _ | VStr _ => True
  | VFloat f => written_float f = f
  | VList l =>
      (fix all (l : list value) : Prop :=
         match l with
         | [] => True
         | x :: r => plain x /\ all r
         end) l
  | VDict kvs =>
      NoDup (map fst kvs) /\
      (fix all (kvs : list (string * value)) : Prop :=
         match kvs with
         | [] => True
         | kv :: r => plain (snd kv) /\ all r
         end) kvs
  | VMethod | VProperty | VInst _ _ _ => False
  end.


(** [json.loads] on the members of an object, by name. *)
Definition loads_items (kvs : list (string * json)) (d : list (string * value))
  : list (string * value) :=
  fold_left (fun d kv => dict_set (fst kv) (json_loads (snd kv)) d) kvs d.

(** ** Serialization of one member *)

(** What the body of the loop of [_serialize] writes for the member [m]:
    nothing, or the value stored under the member's name. *)
Definition member_image (dumps_rec : value -> outcome json) (obj : value)
           (m : string * value) : outcome (option value) :=
  if String.prefix "__" (fst m) then Ok None
  else if is_property (snd m) then Ok None
  else if hasattr obj (fst m) then
    member_value <- getattr obj (fst m) ;;
    if is_primitive_value member_value then Ok (Some member_value)
    else s <- dumps_rec member_value ;; Ok (Some (json_loads s))
  else Ok None.

Definition store_image (acc : list (string * value)) (m : string * value)
           (o : option value) : list (string * value) :=
  match o with
  | Some w => dict_set (fst m) w acc
  | None => acc
  end.


(** ** Instances that conform to their declaration *)




(** ** What the round trip does to one field *)






(** [typ] is a user class, not a builtin type or [inspect._empty]. *)
Definition is_class (typ : pytype) : bool :=
  match typ with T_class _ => true | _ => false end.

(** What the [except] clause of [_verify_member_type] re-raises for the
    exception [e] of the nested [load]: a [DeserializeException] is wrapped
    and kept as the cause, any other exception passes through. *)
Definition reraised (v : value) (annotation : pytype) (e : exn) : exn :=
  match e with
  | DeserializeException m _ =>
      DeserializeException (MsgCast v annotation m) (Some e)
  | _ => e
  end.

(** A JSON text that is [null], a boolean or a number. *)
Definition json_scalar (j : json) : bool :=
  match j with
  | JNull | JBool _ | JInt _ | JFloat _ => true
  | _ => false
  end.

(** Ascending order of names, as [str] compares them. *)
Definition name_le (k1 k2 : string) : Prop := String.leb k1 k2 = true.

(** A member [_serialize] does not skip. *)
Definition is_serialized (m : string * value) : bool :=
  negb (String.prefix "__" (fst m)) && negb (is_property (snd m)).

(** ** Example types *)

Module Examples.

Definition std_names : list string :=
  ["__class__"; "__doc__"; "__init__"; "__repr__"].

Definition self : param := MkParam "self" T_empty None.

(** [class Inner: def __init__(self, id: int)] *)
Definition Inner : pyclass :=
  MkClass "Inner" std_names [self; MkParam "id" T_int None]
          (methods std_names).

(** [class Outer: def __init__(self, inner: Inner)] *)
Definition Outer : pyclass :=
  MkClass "Outer" std_names [self; MkParam "inner" (T_class Inner) None]
          (methods std_names).

(** [class Named: def __init__(self, name: str)] *)
Definition Named : pyclass :=
  MkClass "Named" std_names [self; MkParam "name" T_str None]
          (methods std_names).

(** [class Person: def __init__(self, age: int, name: str)] *)
Definition Person : pyclass :=
  MkClass "Person" std_names
          [self; MkParam "age" T_int None; MkParam "name" T_str None]
          (methods std_names).

(** [class Counter: def __init__(self, count: int = 0)] *)
Definition Counter : pyclass :=
  MkClass "Counter" std_names [self; MkParam "count" T_int (Some (VInt 0))]
          (methods std_names).



(** [class Price: def __init__(self, amount: float)] *)
Definition Price : pyclass :=
  MkClass "Price" std_names [self; MkParam "amount" T_float None]
          (methods std_names).

(** A type whose member listing has no [__init__]. *)
Definition NoInit : pyclass :=
  MkClass "NoInit" ["__class__"; "__doc__"]
          [self; MkParam "x" T_int None] [].

(** A type whose member listing has [__init__] twice. *)
Definition TwoInit : pyclass :=
  MkClass "TwoInit" ["__init__"; "__init__"]
          [self; MkParam "x" T_int None] [].



(** [Outer(Inner(7))] *)
Definition an_outer : value :=
  VInst "Outer" (cls_class_attrs Outer)
        [("inner", VInst "Inner" (cls_class_attrs Inner) [("id", VInt 7)])].

End Examples.

(** * Properties *)

(** ** Inversion of sequenced calls *)

Lemma bind_raise {A B} (m : outcome A) (k : A -> outcome B) (e : exn) :
  bind m k = Raise e ->
  m = Raise e \/ exists a, m = Ok a /\ k a = Raise e.
Proof.
  destruct m; simpl; intros H;
    [right; eauto | inversion H; left; reflexivity | discriminate].
Qed.

Lemma bind_ok {A B} (m : outcome A) (k : A -> outcome B) (b : B) :
  bind m k = Ok b -> exists a, m = Ok a /\ k a = Ok b.
Proof. destruct m; simpl; intros H; [eauto | discriminate | discriminate]. Qed.

Lemma bind_fuel {A B} (m : outcome A) (k : A -> outcome B) :
  bind m k = OutOfFuel ->
  m = OutOfFuel \/ exists a, m = Ok a /\ k a = OutOfFuel.
Proof.
  destruct m; simpl; intros H;
    [right; eauto | discriminate | left; reflexivity].
Qed.

Lemma for_params_raise {S} (body : S -> param -> outcome S)
      (ps : list param) (s : S) (e : exn) :
  for_params body ps s = Raise e ->
  exists s' p, In p ps /\ body s' p = Raise e.
Proof.
  revert s; induction ps as [|p ps IH]; simpl; intros s H; [discriminate|].
  apply bind_raise in H as [H | (s' & _ & H)].
  - exists s, p; auto.
  - destruct (IH _ H) as (s'' & q & Hq & Hb). exists s'', q; auto.
Qed.

Lemma for_params_ok_inv {S} (body : S -> param -> outcome S)
      (p : param) (ps : list param) (s r : S) :
  for_params body (p :: ps) s = Ok r ->
  exists s', body s p = Ok s' /\ for_params body ps s' = Ok r.
Proof. simpl; intros H; apply bind_ok in H; exact H. Qed.

Lemma py_in_raise (name : string) (container : value) (e : exn) :
  py_in name container = Raise e -> is_deserialize_exception e = false.
Proof. destruct container; simpl; intros H; inversion H; reflexivity. Qed.

Lemma py_getitem_raise (container : value) (name : string) (e : exn) :
  py_getitem container name = Raise e -> is_deserialize_exception e = false.
Proof.
  destruct container; simpl; intros H; try (inversion H; reflexivity).
  destruct (dict_get name kvs); inversion H; reflexivity.
Qed.

(** ** Induction on nested values *)

Section ValueInduction.
Variable P : value -> Prop.
Hypothesis HNone : P VNone.
Hypothesis HBool : forall b, P (VBool b).
Hypothesis HInt : forall z, P (VInt z).
Hypothesis HFloat : forall f, P (VFloat f).
Hypothesis HStr : forall s, P (VStr s).
Hypothesis HList : forall l, Forall P l -> P (VList l).
Hypothesis HDict :
  forall kvs, Forall (fun kv => P (snd kv)) kvs -> P (VDict kvs).
Hypothesis HMethod : P VMethod.
Hypothesis HProperty : P VProperty.
Hypothesis HInst :
  forall n ca d,
    Forall (fun kv => P (snd kv)) ca -> Forall (fun kv => P (snd kv)) d ->
    P (VInst n ca d).

Fixpoint value_nested_ind (v : value) : P v :=
  let fix on_list (l : list value) : Forall P l :=
    match l with
    | [] => Forall_nil _
    | x :: r => Forall_cons x (value_nested_ind x) (on_list r)
    end in
  let fix on_items (kvs : list (string * value))
    : Forall (fun kv => P (snd kv)) kvs :=
    match kvs with
    | [] => Forall_nil _
    | kv :: r =>
        Forall_cons kv (value_nested_ind (snd kv)) (on_items r)
    end in
  match v with
  | VNone => HNone
  | VBool b => HBool b
  | VInt z => HInt z
  | VFloat f => HFloat f
  | VStr s => HStr s
  | VList l => HList l (on_list l)
  | VDict kvs => HDict kvs (on_items kvs)
  | VMethod => HMethod
  | VProperty => HProperty
  | VInst n ca d => HInst n ca d (on_items ca) (on_items d)
  end.
End ValueInduction.

Section JsonInduction.
Variable P : json -> Prop.
Hypothesis HNull : P JNull.
Hypothesis HBool : forall b, P (JBool b).
Hypothesis HInt : forall z, P (JInt z).
Hypothesis HFloat : forall f, P (JFloat f).
Hypothesis HStr : forall s, P (JStr s).
Hypothesis HArr : forall l, Forall P l -> P (JArr l).
Hypothesis HObj :
  forall kvs, Forall (fun kv => P (snd kv)) kvs -> P (JObj kvs).

Fixpoint json_nested_ind (j : json) : P j :=
  let fix on_list (l : list json) : Forall P l :=
    match l with
    | [] => Forall_nil _
    | x :: r => Forall_cons x (json_nested_ind x) (on_list r)
    end in
  let fix on_items (kvs : list (string * json))
    : Forall (fun kv => P (snd kv)) kvs :=
    match kvs with
    | [] => Forall_nil _
    | kv :: r => Forall_cons kv (json_nested_ind (snd kv)) (on_items r)
    end in
  match j with
  | JNull => HNull
  | JBool b => HBool b
  | JInt z => HInt z
  | JFloat f => HFloat f
  | JStr s => HStr s
  | JArr l => HArr l (on_list l)
  | JObj kvs => HObj kvs (on_items kvs)
  end.
End JsonInduction.

(** ** The codec *)

Lemma json_dumps_list (l : list value) :
  json_dumps (VList l) = (js <- dumps_elems l ;; Ok (JArr js)).
Proof. reflexivity. Qed.

Lemma json_dumps_dict (kvs : list (string * value)) :
  json_dumps (VDict kvs) = (js <- dumps_items kvs ;; Ok (JObj js)).
Proof. reflexivity. Qed.

Lemma json_dumps_raise (v : value) (e : exn) :
  json_dumps v = Raise e -> e = not_serializable.
Proof.
  revert e. induction v using value_nested_ind; intros e He;
    try (simpl in He; congruence).
  - rewrite json_dumps_list in He.
    apply bind_raise in He as [He | (js & _ & He)]; [|discriminate].
    induction H as [|x r Hx _ IH]; simpl in He; [discriminate|].
    apply bind_raise in He as [He | (j & _ & He)]; [eauto|].
    apply bind_raise in He as [He | (js & _ & He)]; [eauto|discriminate].
  - rewrite json_dumps_dict in He.
    apply bind_raise in He as [He | (js & _ & He)]; [|discriminate].
    induction H as [|[k x] r Hx _ IH]; simpl in He; [discriminate|].
    apply bind_raise in He as [He | (j & _ & He)]; [eauto|].
    apply bind_raise in He as [He | (js & _ & He)]; [eauto|discriminate].
Qed.

Lemma json_dumps_total (v : value) : json_dumps v <> OutOfFuel.
Proof.
  induction v using value_nested_ind; try (simpl; congruence).
  - rewrite json_dumps_list. intros He.
    apply bind_fuel in He as [He | (js & _ & He)]; [|discriminate].
    induction H as [|x r Hx _ IH]; simpl in He; [discriminate|].
    apply bind_fuel in He as [He | (j & _ & He)]; [eauto|].
    apply bind_fuel in He as [He | (js & _ & He)]; [eauto|discriminate].
  - rewrite json_dumps_dict. intros He.
    apply bind_fuel in He as [He | (js & _ & He)]; [|discriminate].
    induction H as [|[k x] r Hx _ IH]; simpl in He; [discriminate|].
    apply bind_fuel in He as [He | (j & _ & He)]; [eauto|].
    apply bind_fuel in He as [He | (js & _ & He)]; [eauto|discriminate].
Qed.

(** ** Schema resolution *)

Lemma filter_init_members (typ : pytype) (names : list string) :
  filter is_init
    (map (fun n => (n, if String.eqb n "__init__"
                       then MFunction (init_signature typ) else MOther))
         names)
  = repeat ("__init__", MFunction (init_signature typ))
           (List.length (filter (fun n => String.eqb n "__init__") names)).
Proof.
  induction names as [|n names IH]; simpl; [reflexivity|].
  unfold is_init at 1; simpl.
  destruct (String.eqb n "__init__") eqn:E; simpl; rewrite IH.
  - apply String.eqb_eq in E; subst; reflexivity.
  - reflexivity.
Qed.

Lemma initializer_members_shape (typ : pytype) :
  filter is_init (getmembers_type typ)
  = repeat ("__init__", MFunction (init_signature typ))
           (initializer_count typ).
Proof.
  unfold initializer_count, getmembers_type.
  rewrite filter_init_members, repeat_length; reflexivity.
Qed.

Section SchemaResolution.
Variable load_rec : pytype -> json -> outcome value.

Lemma fetch_init_one (typ : pytype) (json_str : json) :
  initializer_count typ = 1%nat ->
  _fetch_init_and_verify_members load_rec typ json_str
  = verify_members load_rec (MFunction (init_signature typ)) json_str.
Proof.
  intros H. unfold _fetch_init_and_verify_members,
    _fetch_initializer_members.
  fold is_init. rewrite initializer_members_shape, H; reflexivity.
Qed.

Lemma fetch_init_not_one (typ : pytype) (json_str : json) :
  initializer_count typ <> 1%nat ->
  _fetch_init_and_verify_members load_rec typ json_str
  = Raise (schema_error typ).
Proof.
  intros H. unfold _fetch_init_and_verify_members,
    _fetch_initializer_members.
  fold is_init. rewrite initializer_members_shape, repeat_length.
  apply Nat.eqb_neq in H. rewrite H; reflexivity.
Qed.
End SchemaResolution.

Lemma load_fuel_S (n : nat) (typ : pytype) (json_str : json) :
  load_fuel (S n) typ json_str = load_body (load_fuel n) typ json_str.
Proof. reflexivity. Qed.

Lemma load_body_one (load_rec : pytype -> json -> outcome value)
      (typ : pytype) (json_str : json) :
  initializer_count typ = 1%nat ->
  load_body load_rec typ json_str
  = (verify_members load_rec (MFunction (init_signature typ)) json_str ;;;
     _deserialize load_rec typ (json_loads json_str)).
Proof.
  intros H. unfold load_body. rewrite fetch_init_one by assumption.
  reflexivity.
Qed.

Lemma load_body_not_one (load_rec : pytype -> json -> outcome value)
      (typ : pytype) (json_str : json) :
  initializer_count typ <> 1%nat ->
  load_body load_rec typ json_str = Raise (schema_error typ).
Proof.
  intros H. unfold load_body. rewrite fetch_init_not_one by assumption.
  reflexivity.
Qed.

(** ** Failures that are not a [DeserializeException] *)

(** C3, at the inputs where it breaks: a JSON number where the nested
    record [Inner] is expected, and a JSON integer for a field declared
    [float], make [load] raise the builtin [TypeError], which is not a
    [DeserializeException]. *)
Theorem load_primitive_for_record_raises_TypeError :
  load (T_class Examples.Outer) (JObj [("inner", JInt 5)])
  = Raise (TypeError "argument is not iterable")
  /\ load (T_class Examples.Price) (JObj [("amount", JInt 5)])
     = Raise (TypeError "argument is not iterable")
  /\ is_deserialize_exception (TypeError "argument is not iterable") = false.
Proof. repeat split; reflexivity. Qed.

(** ** The cause chain of a nested mismatch *)

Section NestedMismatch.
Variables (inner_name outer_name : string).
Variables (inner_members outer_members : list string).
Variables (inner_attrs outer_attrs : list (string * value)).

Let Inner : pyclass :=
  MkClass inner_name inner_members
          [Examples.self; MkParam "id" T_int None] inner_attrs.
Let Outer : pyclass :=
  MkClass outer_name outer_members
          [Examples.self; MkParam "inner" (T_class Inner) None] outer_attrs.

Let leaf : exn := DeserializeException (MsgMissing "args") None.
Let middle : exn :=
  DeserializeException
    (MsgCast (VStr "not-an-int") T_int (MsgMissing "args")) (Some leaf).

(** C5, as the code has it: for [Outer(inner: Inner)], [Inner(id: int)]
    and the text [{"inner": {"id": "not-an-int"}}], [load] raises a
    [DeserializeException] whose message records the offending object and
    the type [Inner]; its cause records the value ["not-an-int"] and the
    type [int]; the cause of that one, the end of the chain, reports that
    the parameter [args] of the initializer of [int] is missing. *)
Theorem nested_mismatch_cause_chain :
  initializer_count (T_class Inner) = 1%nat ->
  initializer_count (T_class Outer) = 1%nat ->
  load (T_class Outer) (JObj [("inner", JObj [("id", JStr "not-an-int")])])
  = Raise
      (DeserializeException
         (MsgCast (VDict [("id", VStr "not-an-int")]) (T_class Inner)
                  (MsgCast (VStr "not-an-int") T_int (MsgMissing "args")))
         (Some middle)).
Proof.
  intros HI HO. unfold load. simpl json_depth.
  rewrite load_fuel_S, (load_body_one _ _ _ HO).
  cbn -[load_fuel].
  rewrite load_fuel_S, (load_body_one _ _ _ HI).
  cbn -[load_fuel].
  reflexivity.
Qed.
End NestedMismatch.

Lemma nested_mismatch_cause_chain_witness :
  load (T_class Examples.Outer)
       (JObj [("inner", JObj [("id", JStr "not-an-int")])])
  = Raise
      (DeserializeException
         (MsgCast (VDict [("id", VStr "not-an-int")]) (T_class Examples.Inner)
                  (MsgCast (VStr "not-an-int") T_int (MsgMissing "args")))
         (Some (DeserializeException
                  (MsgCast (VStr "not-an-int") T_int (MsgMissing "args"))
                  (Some (DeserializeException (MsgMissing "args") None))))).
Proof.
  apply (nested_mismatch_cause_chain
           "Inner" "Outer" Examples.std_names Examples.std_names
           (methods Examples.std_names) (methods Examples.std_names));
    reflexivity.
Defined.

Lemma nested_mismatch_root_is_not_id :
  exists e,
    load (T_class Examples.Outer)
         (JObj [("inner", JObj [("id", JStr "not-an-int")])]) = Raise e
    /\ root_cause e = DeserializeException (MsgMissing "args") None
    /\ Forall (fun e' => named_field e' <> Some "id") (cause_chain e).
Proof.
  eexists. split; [reflexivity|]. split; [reflexivity|].
  simpl. repeat constructor; discriminate.
Qed.

(** ** Shape of the exceptions [load] raises *)

Section RaisedExceptions.
Variable load_rec : pytype -> json -> outcome value.
Hypothesis load_rec_chained :
  forall t s e, load_rec t s = Raise e -> chained e.

Lemma _verify_member_type_chained (member : param) (v : value) (e : exn) :
  _verify_member_type load_rec member v = Raise e -> chained e.
Proof.
  unfold _verify_member_type.
  destruct (isinstance v (param_annotation member)); simpl; [discriminate|].
  destruct (json_dumps v) as [s | e0 | ] eqn:Ed; simpl.
  - destruct (load_rec (param_annotation member) s) as [x | e1 | ] eqn:El;
      try discriminate.
    apply load_rec_chained in El.
    destruct e1 as [m c | | | ]; intros H; inversion H; subst; simpl; auto.
  - apply json_dumps_raise in Ed; subst. intros H; inversion H; exact I.
  - discriminate.
Qed.

Lemma not_deserialize_chained (e : exn) :
  is_deserialize_exception e = false -> chained e.
Proof. destruct e; simpl; intros H; [discriminate | | |]; exact I. Qed.

Lemma verify_members_chained (f : member) (json_str : json) (e : exn) :
  verify_members load_rec f json_str = Raise e -> chained e.
Proof.
  unfold verify_members. intros H.
  apply bind_raise in H as [H | (ps & _ & H)].
  - destruct f; simpl in H; inversion H; exact I.
  - apply for_params_raise in H as ([] & p & _ & H).
    destruct (String.eqb (param_name p) "self"); [discriminate|].
    apply bind_raise in H as [H | (present & _ & H)].
    + apply not_deserialize_chained, (py_in_raise _ _ _ H).
    + destruct present.
      * apply bind_raise in H as [H | (v & _ & H)].
        -- apply not_deserialize_chained, (py_getitem_raise _ _ _ H).
        -- apply (_verify_member_type_chained _ _ _ H).
      * destruct (param_default p); inversion H; exact I.
Qed.

Lemma instantiate_raise (cls : pytype) (kwargs : list (string * value))
      (e : exn) :
  instantiate cls kwargs = Raise e -> e = bad_call.
Proof.
  unfold instantiate. intros H.
  destruct cls; try (destruct kwargs; inversion H; reflexivity).
  destruct (cls_init_params c) as [|recv fields]; [inversion H; reflexivity|].
  destruct (known_keywords _ _); [|inversion H; reflexivity].
  destruct (bind_arguments _ _); inversion H; reflexivity.
Qed.

Lemma _deserialize_chained (cls : pytype) (data : value) (e : exn) :
  _deserialize load_rec cls data = Raise e -> chained e.
Proof.
  unfold _deserialize. intros H.
  apply bind_raise in H as [H | (args & _ & H)].
  - apply for_params_raise in H as (acc & p & _ & H).
    destruct (String.eqb (param_name p) "self"); [discriminate|].
    apply bind_raise in H as [H | (present & _ & H)].
    + apply not_deserialize_chained, (py_in_raise _ _ _ H).
    + destruct present.
      * apply bind_raise in H as [H | (v & _ & H)].
        -- apply not_deserialize_chained, (py_getitem_raise _ _ _ H).
        -- destruct (is_primitive_type _); [discriminate|].
           apply bind_raise in H as [H | (s & _ & H)].
           ++ apply json_dumps_raise in H; subst; exact I.
           ++ apply bind_raise in H as [H | (x & _ & H)];
                [eauto | discriminate].
      * destruct (param_default p); inversion H; exact I.
  - apply instantiate_raise in H; subst; exact I.
Qed.

Lemma load_body_chained (typ : pytype) (json_str : json) (e : exn) :
  load_body load_rec typ json_str = Raise e -> chained e.
Proof.
  destruct (Nat.eq_dec (initializer_count typ) 1) as [H1 | H1].
  - rewrite (load_body_one _ _ _ H1). intros H.
    apply bind_raise in H as [H | (u & _ & H)].
    + apply (verify_members_chained _ _ _ H).
    + apply (_deserialize_chained _ _ _ H).
  - rewrite (load_body_not_one _ _ _ H1). intros H; inversion H; exact I.
Qed.
End RaisedExceptions.

Lemma load_fuel_chained (n : nat) :
  forall typ json_str e, load_fuel n typ json_str = Raise e -> chained e.
Proof.
  induction n as [|n IH]; intros typ json_str e H; [discriminate|].
  apply (load_body_chained (load_fuel n) IH _ _ _ H).
Qed.

(** ** Telling the failures of [load] apart *)

(** C2, as the code has it: [DeserializeException] is one class without a
    kind tag, and whenever [load] fails with it the kind shows in the
    message text only, except for the cause.  A schema error and a
    missing-field error both come without a cause, so that once the message
    text is set aside they are the same; a type-mismatch error is the only
    one with a cause, the nested failure whose message it quotes. *)
Theorem load_error_kinds (typ : pytype) (json_str : json)
        (m : message) (c : option exn) :
  load typ json_str = Raise (DeserializeException m c) ->
  match m with
  | MsgCast _ _ inner => exists c', c = Some (DeserializeException inner c')
  | _ => erase_message (DeserializeException m c) = ShDeserialize None
  end.
Proof.
  intros H. apply load_fuel_chained in H. simpl in H.
  destruct m as [n | v a inner | p]; destruct c as [e' | ]; simpl;
    try contradiction; try reflexivity.
  destruct H as [H _]. destruct e' as [m' c' | | | ]; try contradiction.
  subst. eauto.
Qed.

Lemma load_error_kinds_witness :
  erase_message (schema_error (T_class Examples.NoInit)) = ShDeserialize None.
Proof.
  exact (load_error_kinds (T_class Examples.NoInit) (JObj [])
                          (MsgNoInit (T_class Examples.NoInit)) None
                          eq_refl).
Defined.

Lemma schema_and_missing_errors_same_shape :
  exists e1 e2,
    load (T_class Examples.NoInit) (JObj []) = Raise e1
    /\ load (T_class Examples.Named) (JObj []) = Raise e2
    /\ e1 = schema_error (T_class Examples.NoInit)
    /\ e2 = DeserializeException (MsgMissing "name") None
    /\ erase_message e1 = erase_message e2.
Proof. do 2 eexists. repeat split; reflexivity. Qed.

(** ** Schema rejection *)

(** C4, as the code has it: a type whose member listing does not hold
    exactly one [__init__] makes [load] raise the schema error whatever the
    JSON text is, hence before the text is looked at; [dumps] never
    consults the type it was built for, so its outcome does not depend on
    that type's initializers. *)
Theorem schema_rejection_on_load (typ : pytype) :
  initializer_count typ <> 1%nat ->
  (forall json_str, load typ json_str = Raise (schema_error typ))
  /\ (forall typ' obj, dumps typ obj = dumps typ' obj).
Proof.
  intros H. split; [|reflexivity].
  intros json_str. unfold load. rewrite load_fuel_S.
  apply load_body_not_one; assumption.
Qed.

Lemma schema_rejection_on_load_witness :
  (forall json_str,
      load (T_class Examples.TwoInit) json_str
      = Raise (schema_error (T_class Examples.TwoInit)))
  /\ (forall typ' obj, dumps (T_class Examples.TwoInit) obj = dumps typ' obj).
Proof.
  apply (schema_rejection_on_load (T_class Examples.TwoInit)).
  vm_compute; lia.
Defined.

Lemma dumps_ignores_missing_initializer :
  initializer_count (T_class Examples.NoInit) <> 1%nat
  /\ dumps (T_class Examples.NoInit) (VInst "NoInit" [] [("x", VInt 1)])
     = Ok (JObj [("x", JInt 1)]).
Proof. split; [vm_compute; lia | reflexivity]. Qed.

(** ** The loops over the signature *)

Lemma verify_members_unfold (load_rec : pytype -> json -> outcome value)
      (ps : list param) (json_str : json) :
  verify_members load_rec (MFunction ps) json_str
  = for_params (verify_step load_rec (json_loads json_str)) ps tt.
Proof. reflexivity. Qed.

Lemma _deserialize_unfold (load_rec : pytype -> json -> outcome value)
      (cls : pytype) (data : value) :
  _deserialize load_rec cls data
  = (constructor_args <-
       for_params (deserialize_step load_rec data) (init_signature cls) [] ;;
     instantiate cls constructor_args).
Proof. reflexivity. Qed.

Lemma for_params_app {S} (body : S -> param -> outcome S)
      (ps qs : list param) (s : S) :
  for_params body (ps ++ qs) s
  = (s' <- for_params body ps s ;; for_params body qs s').
Proof.
  revert s; induction ps as [|p ps IH]; simpl; intros s; [reflexivity|].
  destruct (body s p); simpl; auto.
Qed.

(** ** Dictionaries *)

Lemma dict_get_set_same (k : string) (v : value) (d : list (string * value)) :
  dict_get k (dict_set k v d) = Some v.
Proof.
  induction d as [|[k' v'] d IH]; simpl.
  - rewrite String.eqb_refl; reflexivity.
  - destruct (String.eqb k k') eqn:E; simpl.
    + rewrite String.eqb_refl; reflexivity.
    + rewrite E; assumption.
Qed.

Lemma dict_get_set_other (k k' : string) (v : value)
      (d : list (string * value)) :
  k <> k' -> dict_get k (dict_set k' v d) = dict_get k d.
Proof.
  intros Hne. induction d as [|[k0 v0] d IH]; simpl.
  - apply String.eqb_neq in Hne; rewrite Hne; reflexivity.
  - destruct (String.eqb k' k0) eqn:E; simpl.
    + apply String.eqb_eq in E; subst k0.
      apply String.eqb_neq in Hne; rewrite Hne; reflexivity.
    + destruct (String.eqb k k0); auto.
Qed.

Lemma dict_mem_set (k k' : string) (v : value) (d : list (string * value)) :
  dict_mem k (dict_set k' v d) = String.eqb k k' || dict_mem k d.
Proof.
  unfold dict_mem. destruct (String.eqb k k') eqn:E.
  - apply String.eqb_eq in E; subst. rewrite dict_get_set_same; reflexivity.
  - apply String.eqb_neq in E. rewrite dict_get_set_other by assumption.
    reflexivity.
Qed.

(** ** Missing required field *)

Lemma verify_defaulted_prefix (load_rec : pytype -> json -> outcome value)
      (ps : list param) :
  Forall (fun q => param_name q = "self" \/ param_default q <> None) ps ->
  for_params (verify_step load_rec (VDict [])) ps tt = Ok tt.
Proof.
  induction 1 as [|q ps Hq _ IH]; simpl; [reflexivity|].
  unfold verify_step at 1.
  destruct (String.eqb (param_name q) "self") eqn:E; simpl; [exact IH|].
  destruct Hq as [Hq | Hq].
  - apply String.eqb_neq in E; contradiction.
  - destruct (param_default q); [exact IH | congruence].
Qed.

(** C7, as the code has it: when the JSON text is the empty object, [load]
    fails with the missing-field error naming the first parameter, in
    declaration order, that has no default.  That is the field [name]
    when every parameter declared before it has a default. *)
Theorem missing_field_names_first_required
        (typ : pytype) (before after : list param) (p : param) :
  initializer_count typ = 1%nat ->
  init_signature typ = (before ++ p :: after)%list ->
  Forall (fun q => param_name q = "self" \/ param_default q <> None) before ->
  param_name p <> "self" ->
  param_default p = None ->
  load typ (JObj [])
  = Raise (DeserializeException (MsgMissing (param_name p)) None).
Proof.
  intros H1 Hsig Hbefore Hself Hnone.
  unfold load. rewrite load_fuel_S, (load_body_one _ _ _ H1).
  rewrite verify_members_unfold, Hsig, for_params_app.
  simpl json_loads. rewrite (verify_defaulted_prefix _ _ Hbefore).
  simpl. unfold verify_step at 1.
  apply String.eqb_neq in Hself. rewrite Hself. simpl.
  rewrite Hnone. reflexivity.
Qed.

Lemma missing_field_names_first_required_witness :
  load (T_class Examples.Named) (JObj [])
  = Raise (DeserializeException (MsgMissing "name") None).
Proof.
  apply (missing_field_names_first_required
           (T_class Examples.Named) [Examples.self]
           [] (MkParam "name" T_str None)).
  - reflexivity.
  - reflexivity.
  - repeat constructor.
  - simpl; discriminate.
  - reflexivity.
Defined.

Lemma missing_field_names_earlier_field :
  In (MkParam "name" T_str None) (cls_init_params Examples.Person)
  /\ exists e,
      load (T_class Examples.Person) (JObj []) = Raise e
      /\ named_field e = Some "age"
      /\ named_field e <> Some "name".
Proof.
  split; [simpl; auto|].
  eexists; split; [reflexivity|]. split; [reflexivity | discriminate].
Qed.

(** ** Construction: what the loop leaves in [constructor_args] *)

Section ConstructionLoop.
Variable load_rec : pytype -> json -> outcome value.
Variable data : value.

Lemma deserialize_step_other (acc acc' : list (string * value)) (q : param)
      (k : string) :
  deserialize_step load_rec data acc q = Ok acc' ->
  k <> param_name q ->
  dict_get k acc' = dict_get k acc.
Proof.
  unfold deserialize_step. intros H Hk.
  destruct (String.eqb (param_name q) "self"); [inversion H; reflexivity|].
  apply bind_ok in H as (present & _ & H). destruct present.
  - apply bind_ok in H as (v & _ & H).
    destruct (is_primitive_type _).
    + inversion H. apply dict_get_set_other; assumption.
    + apply bind_ok in H as (s & _ & H). apply bind_ok in H as (x & _ & H).
      inversion H. apply dict_get_set_other; assumption.
  - destruct (param_default q); inversion H.
    apply dict_get_set_other; assumption.
Qed.


Lemma deserialize_loop_other (ps : list param) (k : string) :
  forall acc args,
    for_params (deserialize_step load_rec data) ps acc = Ok args ->
    ~ In k (map param_name ps) ->
    dict_get k args = dict_get k acc.
Proof.
  induction ps as [|q ps IH]; simpl; intros acc args H Hk.
  - inversion H; reflexivity.
  - apply bind_ok in H as (acc' & Hq & H).
    rewrite (IH _ _ H) by tauto.
    apply (deserialize_step_other _ _ _ _ Hq). intuition congruence.
Qed.



End ConstructionLoop.

(** ** Binding the keyword arguments *)

Lemma bind_arguments_get (fields : list param)
      (kwargs : list (string * value)) :
  forall bound p,
    bind_arguments fields kwargs = Some bound ->
    NoDup (map param_name fields) ->
    In p fields ->
    dict_get (param_name p) bound
    = match dict_get (param_name p) kwargs with
      | Some v => Some v
      | None => param_default p
      end
    /\ dict_get (param_name p) bound <> None.
Proof.
  induction fields as [|q fields IH]; simpl; intros bound p H Hnd Hin;
    [contradiction|].
  destruct (match dict_get (param_name q) kwargs with
            | Some v => Some v
            | None => param_default q
            end) as [v|] eqn:Ev; [|discriminate].
  destruct (bind_arguments fields kwargs) as [bound'|] eqn:Eb; [|discriminate].
  inversion H; subst bound; clear H.
  inversion Hnd as [|? ? Hq_fresh Hnd']; subst.
  simpl. destruct Hin as [-> | Hin].
  - rewrite String.eqb_refl. rewrite Ev. split; congruence.
  - destruct (String.eqb (param_name p) (param_name q)) eqn:E.
    + apply String.eqb_eq in E. exfalso. apply Hq_fresh.
      rewrite <- E. apply in_map; assumption.
    + apply (IH _ _ eq_refl Hnd' Hin).
Qed.

Lemma instantiate_class_ok (c : pyclass) (kwargs : list (string * value))
      (x : value) :
  instantiate (T_class c) kwargs = Ok x ->
  exists bound,
    x = VInst (cls_name c) (cls_class_attrs c) bound
    /\ bind_arguments (tl (cls_init_params c)) kwargs = Some bound
    /\ known_keywords (tl (cls_init_params c)) kwargs = true.
Proof.
  unfold instantiate.
  destruct (cls_init_params c) as [|recv fields]; [discriminate|]. simpl tl.
  destruct (known_keywords _ _); [|discriminate].
  destruct (bind_arguments _ _) as [bound|]; [|discriminate].
  intros H; inversion H; eauto.
Qed.

Lemma dict_set_keys (k k0 : string) (v : value) (d : list (string * value)) :
  In k0 (map fst (dict_set k v d)) -> k0 = k \/ In k0 (map fst d).
Proof.
  induction d as [|[k' v'] d IH]; simpl.
  - intros [H | []]; auto.
  - destruct (String.eqb k k') eqn:E; simpl.
    + apply String.eqb_eq in E; subst. intros [H | H]; auto.
    + intros [H | H]; auto. destruct (IH H); auto.
Qed.

Section ConstructionKeys.
Variable load_rec : pytype -> json -> outcome value.
Variable data : value.


End ConstructionKeys.



Lemma load_ok_inv (typ : pytype) (json_str : json) (x : value) :
  load typ json_str = Ok x ->
  initializer_count typ = 1%nat
  /\ verify_members (load_fuel (json_depth json_str))
                    (MFunction (init_signature typ)) json_str = Ok tt
  /\ _deserialize (load_fuel (json_depth json_str)) typ
                  (json_loads json_str) = Ok x.
Proof.
  unfold load. rewrite load_fuel_S. intros H.
  destruct (Nat.eq_dec (initializer_count typ) 1) as [H1 | H1].
  - rewrite (load_body_one _ _ _ H1) in H.
    apply bind_ok in H as ([] & Hv & Hd). auto.
  - rewrite (load_body_not_one _ _ _ H1) in H. discriminate.
Qed.

(** ** Default fallback *)

Lemma in_tl {A} (x : A) (l : list A) : In x (tl l) -> In x l.
Proof. destruct l; simpl; auto. Qed.

Lemma NoDup_map_tl {A B} (f : A -> B) (l : list A) :
  NoDup (map f l) -> NoDup (map f (tl l)).
Proof. destruct l; simpl; [auto|]. intros H; inversion H; assumption. Qed.





(** ** Depth of documents and values *)

Lemma list_max_map_le {A} (f : A -> nat) (l : list A) (n : nat) :
  list_max (map f l) <= n <-> Forall (fun x => f x <= n) l.
Proof. rewrite list_max_le, Forall_map. reflexivity. Qed.

Lemma in_depth_lt {A} (f : A -> nat) (l : list A) (x : A) :
  In x l -> f x < S (list_max (map f l)).
Proof.
  intros H.
  assert (Hall : Forall (fun y => f y <= list_max (map f l)) l)
    by (apply list_max_map_le; lia).
  rewrite Forall_forall in Hall. specialize (Hall _ H). lia.
Qed.

Lemma dict_get_In (k : string) (d : list (string * value)) (v : value) :
  dict_get k d = Some v -> In (k, v) d.
Proof.
  induction d as [|[k' v'] d IH]; simpl; [discriminate|].
  destruct (String.eqb k k') eqn:E.
  - apply String.eqb_eq in E; subst. intros H; inversion H; auto.
  - auto.
Qed.

Lemma dict_get_depth (k : string) (d : list (string * value)) (v : value) :
  dict_get k d = Some v -> value_depth v < value_depth (VDict d).
Proof.
  intros H. apply dict_get_In in H. simpl.
  apply (in_depth_lt (fun kv => value_depth (snd kv)) d (k, v) H).
Qed.

Lemma py_getitem_depth (data : value) (k : string) (v : value) :
  py_getitem data k = Ok v -> value_depth v < value_depth data.
Proof.
  destruct data; simpl; try discriminate.
  destruct (dict_get k kvs) eqn:E; [|discriminate].
  intros H; inversion H; subst. apply (dict_get_depth _ _ _ E).
Qed.

Lemma dict_set_Forall (P : string * value -> Prop) (k : string) (v : value)
      (d : list (string * value)) :
  P (k, v) -> Forall P d -> Forall P (dict_set k v d).
Proof.
  intros Hv. induction 1 as [|[k' v'] d Hkv Hd IH]; simpl.
  - auto.
  - destruct (String.eqb k k'); auto.
Qed.

Lemma json_loads_depth (j : json) : value_depth (json_loads j) <= json_depth j.
Proof.
  induction j using json_nested_ind; simpl; try lia.
  - apply le_n_S. rewrite map_map. apply list_max_map_le.
    rewrite Forall_forall in *. intros x Hx.
    specialize (H x Hx).
    pose proof (in_depth_lt json_depth l x Hx). lia.
  - apply le_n_S. apply list_max_map_le.
    set (M := list_max (map (fun kv => json_depth (snd kv)) kvs)).
    assert (Hkvs : Forall (fun kv => value_depth (json_loads (snd kv)) <= M)
                          kvs).
    { rewrite Forall_forall in *. intros kv Hkv. specialize (H kv Hkv).
      pose proof (in_depth_lt (fun kv => json_depth (snd kv)) kvs kv Hkv)
        as Hlt.
      fold M in Hlt. lia. }
    clear H. clearbody M. generalize (Forall_nil (fun kv : string * value =>
                                       value_depth (snd kv) <= M)).
    generalize (@nil (string * value)) as d.
    induction Hkvs as [|kv r Hkv _ IH]; simpl; intros d Hd; [assumption|].
    apply IH. apply dict_set_Forall; assumption.
Qed.

Lemma dumps_elems_depth (l : list value) (n : nat) :
  Forall (fun v => forall s, json_dumps v = Ok s -> json_depth s <= n) l ->
  forall js, dumps_elems l = Ok js -> Forall (fun s => json_depth s <= n) js.
Proof.
  induction 1 as [|x r Hx _ IH]; simpl; intros js H.
  - inversion H; constructor.
  - apply bind_ok in H as (j & Hj & H). apply bind_ok in H as (js' & Hjs & H).
    inversion H; subst. constructor; auto.
Qed.

Lemma dumps_items_depth (kvs : list (string * value)) (n : nat) :
  Forall (fun kv => forall s, json_dumps (snd kv) = Ok s -> json_depth s <= n)
         kvs ->
  forall js, dumps_items kvs = Ok js ->
             Forall (fun kj => json_depth (snd kj) <= n) js.
Proof.
  induction 1 as [|[k x] r Hx _ IH]; simpl; intros js H.
  - inversion H; constructor.
  - apply bind_ok in H as (j & Hj & H). apply bind_ok in H as (js' & Hjs & H).
    inversion H; subst. constructor; auto.
Qed.

Lemma json_dumps_depth (v : value) :
  forall j, json_dumps v = Ok j -> json_depth j <= value_depth v.
Proof.
  induction v using value_nested_ind; intros j Hj;
    try (simpl in Hj; inversion Hj; simpl; lia).
  - rewrite json_dumps_list in Hj. apply bind_ok in Hj as (js & Hjs & Hj).
    inversion Hj; subst. simpl. apply le_n_S. apply list_max_map_le.
    refine (dumps_elems_depth l _ _ js Hjs).
    rewrite Forall_forall in *. intros x Hx j Hjx.
    specialize (H x Hx j Hjx).
    pose proof (in_depth_lt value_depth l x Hx). lia.
  - rewrite json_dumps_dict in Hj. apply bind_ok in Hj as (js & Hjs & Hj).
    inversion Hj; subst. simpl. apply le_n_S. apply list_max_map_le.
    refine (dumps_items_depth kvs _ _ js Hjs).
    rewrite Forall_forall in *. intros kv Hkv j Hjx.
    specialize (H kv Hkv j Hjx).
    pose proof (in_depth_lt (fun kv => value_depth (snd kv)) kvs kv Hkv). lia.
Qed.

Lemma nested_document_depth (data v : value) (k : string) (s : json) :
  py_getitem data k = Ok v ->
  json_dumps v = Ok s ->
  value_depth (json_loads s) < value_depth data.
Proof.
  intros Hv Hs. apply py_getitem_depth in Hv. apply json_dumps_depth in Hs.
  pose proof (json_loads_depth s). lia.
Qed.

(** ** The recursion budget is enough *)

Lemma for_params_ext {S} (body body' : S -> param -> outcome S)
      (ps : list param) :
  (forall s p, body s p = body' s p) ->
  forall s, for_params body ps s = for_params body' ps s.
Proof.
  intros H. induction ps as [|p ps IH]; simpl; intros s; [reflexivity|].
  rewrite H. destruct (body' s p); simpl; auto.
Qed.

Section SmallerDocuments.
Variables load_rec load_rec' : pytype -> json -> outcome value.
Variable data : value.
Hypothesis same_below :
  forall t s, value_depth (json_loads s) < value_depth data ->
              load_rec t s = load_rec' t s.

Lemma _verify_member_type_ext (member : param) (v : value) (k : string) :
  py_getitem data k = Ok v ->
  _verify_member_type load_rec member v
  = _verify_member_type load_rec' member v.
Proof.
  intros Hv. unfold _verify_member_type.
  destruct (isinstance v (param_annotation member)); [reflexivity|]. simpl.
  destruct (json_dumps v) as [s| |] eqn:Es; simpl; [|reflexivity|reflexivity].
  rewrite (same_below _ _ (nested_document_depth _ _ _ _ Hv Es)).
  reflexivity.
Qed.

Lemma verify_step_ext (u : unit) (p : param) :
  verify_step load_rec data u p = verify_step load_rec' data u p.
Proof.
  unfold verify_step.
  destruct (String.eqb (param_name p) "self"); [reflexivity|].
  destruct (py_in (param_name p) data) as [[|]| |]; simpl; try reflexivity.
  destruct (py_getitem data (param_name p)) as [v| |] eqn:Ev; simpl;
    try reflexivity.
  apply (_verify_member_type_ext _ _ _ Ev).
Qed.

Lemma deserialize_step_ext (acc : list (string * value)) (p : param) :
  deserialize_step load_rec data acc p = deserialize_step load_rec' data acc p.
Proof.
  unfold deserialize_step.
  destruct (String.eqb (param_name p) "self"); [reflexivity|].
  destruct (py_in (param_name p) data) as [[|]| |]; simpl; try reflexivity.
  destruct (py_getitem data (param_name p)) as [v| |] eqn:Ev; simpl;
    try reflexivity.
  destruct (is_primitive_type _); [reflexivity|].
  destruct (json_dumps v) as [s| |] eqn:Es; simpl; try reflexivity.
  rewrite (same_below _ _ (nested_document_depth _ _ _ _ Ev Es)).
  reflexivity.
Qed.
End SmallerDocuments.

Lemma load_body_ext (load_rec load_rec' : pytype -> json -> outcome value)
      (typ : pytype) (json_str : json) :
  (forall t s,
      value_depth (json_loads s) < value_depth (json_loads json_str) ->
      load_rec t s = load_rec' t s) ->
  load_body load_rec typ json_str = load_body load_rec' typ json_str.
Proof.
  intros H.
  destruct (Nat.eq_dec (initializer_count typ) 1) as [H1 | H1].
  - rewrite !(load_body_one _ _ _ H1).
    rewrite !verify_members_unfold, !_deserialize_unfold.
    rewrite (for_params_ext _ _ _ (verify_step_ext _ _ _ H)).
    rewrite (for_params_ext _ _ _ (deserialize_step_ext _ _ _ H)).
    reflexivity.
  - rewrite !(load_body_not_one _ _ _ H1). reflexivity.
Qed.

Lemma load_fuel_enough (n : nat) :
  forall m typ json_str,
    value_depth (json_loads json_str) < n ->
    value_depth (json_loads json_str) < m ->
    load_fuel n typ json_str = load_fuel m typ json_str.
Proof.
  induction n as [|n IH]; intros m typ json_str Hn Hm; [lia|].
  destruct m as [|m]; [lia|].
  rewrite !load_fuel_S. apply load_body_ext. intros t s Hs.
  apply IH; lia.
Qed.

Lemma load_with_fuel (n : nat) (typ : pytype) (json_str : json) :
  value_depth (json_loads json_str) < n ->
  load typ json_str = load_fuel n typ json_str.
Proof.
  intros H. unfold load. apply load_fuel_enough; [|assumption].
  pose proof (json_loads_depth json_str). lia.
Qed.

Lemma for_params_fuel {S} (body : S -> param -> outcome S)
      (ps : list param) (s : S) :
  for_params body ps s = OutOfFuel ->
  exists s' p, In p ps /\ body s' p = OutOfFuel.
Proof.
  revert s; induction ps as [|p ps IH]; simpl; intros s H; [discriminate|].
  apply bind_fuel in H as [H | (s' & _ & H)].
  - exists s, p; auto.
  - destruct (IH _ H) as (s'' & q & Hq & Hb). exists s'', q; auto.
Qed.

Lemma py_in_total (k : string) (data : value) : py_in k data <> OutOfFuel.
Proof. destruct data; simpl; discriminate. Qed.

Lemma py_getitem_total (data : value) (k : string) :
  py_getitem data k <> OutOfFuel.
Proof.
  destruct data; simpl; try discriminate.
  destruct (dict_get k kvs); discriminate.
Qed.

Lemma instantiate_total (cls : pytype) (kwargs : list (string * value)) :
  instantiate cls kwargs <> OutOfFuel.
Proof.
  unfold instantiate.
  destruct cls; try (destruct kwargs; discriminate).
  destruct (cls_init_params c); [discriminate|].
  destruct (known_keywords _ _); [|discriminate].
  destruct (bind_arguments _ _); discriminate.
Qed.

Section TotalBelow.
Variable load_rec : pytype -> json -> outcome value.
Variable data : value.
Hypothesis total_below :
  forall t s, value_depth (json_loads s) < value_depth data ->
              load_rec t s <> OutOfFuel.

Lemma verify_step_total (u : unit) (p : param) :
  verify_step load_rec data u p <> OutOfFuel.
Proof.
  unfold verify_step. intros H.
  destruct (String.eqb (param_name p) "self"); [discriminate|].
  apply bind_fuel in H as [H | (present & _ & H)];
    [exact (py_in_total _ _ H)|].
  destruct present.
  - apply bind_fuel in H as [H | (v & Hv & H)];
      [exact (py_getitem_total _ _ H)|].
    unfold _verify_member_type in H.
    destruct (isinstance v (param_annotation p)); [discriminate|].
    simpl in H.
    destruct (json_dumps v) as [s|e0|] eqn:Es; simpl in H;
      [|destruct e0; discriminate | exact (json_dumps_total _ Es)].
    destruct (load_rec (param_annotation p) s) as [x|e|] eqn:El.
    + discriminate.
    + destruct e; discriminate.
    + exact (total_below _ _ (nested_document_depth _ _ _ _ Hv Es) El).
  - destruct (param_default p); discriminate.
Qed.

Lemma deserialize_step_total (acc : list (string * value)) (p : param) :
  deserialize_step load_rec data acc p <> OutOfFuel.
Proof.
  unfold deserialize_step. intros H.
  destruct (String.eqb (param_name p) "self"); [discriminate|].
  apply bind_fuel in H as [H | (present & _ & H)];
    [exact (py_in_total _ _ H)|].
  destruct present.
  - apply bind_fuel in H as [H | (v & Hv & H)];
      [exact (py_getitem_total _ _ H)|].
    destruct (is_primitive_type _); [discriminate|].
    apply bind_fuel in H as [H | (s & Hs & H)];
      [exact (json_dumps_total _ H)|].
    apply bind_fuel in H as [H | (x & _ & H)]; [|discriminate].
    exact (total_below _ _ (nested_document_depth _ _ _ _ Hv Hs) H).
  - destruct (param_default p); discriminate.
Qed.
End TotalBelow.

Lemma load_fuel_total (n : nat) :
  forall typ json_str,
    value_depth (json_loads json_str) < n ->
    load_fuel n typ json_str <> OutOfFuel.
Proof.
  induction n as [|n IH]; intros typ json_str Hn; [lia|].
  rewrite load_fuel_S.
  assert (Hbelow : forall t s,
             value_depth (json_loads s) < value_depth (json_loads json_str) ->
             load_fuel n t s <> OutOfFuel)
    by (intros t s Hs; apply IH; lia).
  destruct (Nat.eq_dec (initializer_count typ) 1) as [H1 | H1].
  - rewrite (load_body_one _ _ _ H1). intros H.
    apply bind_fuel in H as [H | (u & _ & H)].
    + rewrite verify_members_unfold in H.
      apply for_params_fuel in H as (u & p & _ & H).
      exact (verify_step_total _ _ Hbelow _ _ H).
    + rewrite _deserialize_unfold in H.
      apply bind_fuel in H as [H | (args & _ & H)].
      * apply for_params_fuel in H as (acc & p & _ & H).
        exact (deserialize_step_total _ _ Hbelow _ _ H).
      * exact (instantiate_total _ _ H).
  - rewrite (load_body_not_one _ _ _ H1). discriminate.
Qed.

(** [load] always returns or raises: the budget it is given suffices. *)
Lemma load_total (typ : pytype) (json_str : json) :
  load typ json_str <> OutOfFuel.
Proof.
  apply load_fuel_total. pose proof (json_loads_depth json_str). lia.
Qed.

(** ** Keys that name no parameter *)

Lemma for_params_ext_in {S} (body body' : S -> param -> outcome S)
      (ps : list param) :
  (forall s p, In p ps -> body s p = body' s p) ->
  forall s, for_params body ps s = for_params body' ps s.
Proof.
  induction ps as [|p ps IH]; simpl; intros H s; [reflexivity|].
  rewrite H by auto. destruct (body' s p); simpl; auto.
Qed.

Section AgreeingDocuments.
Variable load_rec : pytype -> json -> outcome value.
Variables kvs1 kvs2 : list (string * value).
Variable ps : list param.
Hypothesis agree :
  forall p, In p ps ->
            dict_get (param_name p) kvs1 = dict_get (param_name p) kvs2.

Lemma verify_step_agree (u : unit) (p : param) :
  In p ps ->
  verify_step load_rec (VDict kvs1) u p = verify_step load_rec (VDict kvs2) u p.
Proof.
  intros Hp. unfold verify_step, py_in, py_getitem, dict_mem.
  rewrite (agree _ Hp). reflexivity.
Qed.

Lemma deserialize_step_agree (acc : list (string * value)) (p : param) :
  In p ps ->
  deserialize_step load_rec (VDict kvs1) acc p
  = deserialize_step load_rec (VDict kvs2) acc p.
Proof.
  intros Hp. unfold deserialize_step, py_in, py_getitem, dict_mem.
  rewrite (agree _ Hp). reflexivity.
Qed.
End AgreeingDocuments.

Lemma load_body_agree (load_rec : pytype -> json -> outcome value)
      (typ : pytype) (kvs1 kvs2 : list (string * value)) (j1 j2 : json) :
  json_loads j1 = VDict kvs1 ->
  json_loads j2 = VDict kvs2 ->
  (forall p, In p (init_signature typ) ->
             dict_get (param_name p) kvs1 = dict_get (param_name p) kvs2) ->
  load_body load_rec typ j1 = load_body load_rec typ j2.
Proof.
  intros E1 E2 H.
  destruct (Nat.eq_dec (initializer_count typ) 1) as [H1 | H1].
  - rewrite !(load_body_one _ _ _ H1).
    rewrite !verify_members_unfold, !_deserialize_unfold, E1, E2.
    rewrite (for_params_ext_in _ _ _
               (fun u p Hp => verify_step_agree load_rec _ _ _ H u p Hp)).
    rewrite (for_params_ext_in _ _ _
               (fun a p Hp => deserialize_step_agree load_rec _ _ _ H a p Hp)).
    reflexivity.
  - rewrite !(load_body_not_one _ _ _ H1). reflexivity.
Qed.

Lemma load_agree (typ : pytype) (kvs1 kvs2 : list (string * value))
      (j1 j2 : json) :
  json_loads j1 = VDict kvs1 ->
  json_loads j2 = VDict kvs2 ->
  (forall p, In p (init_signature typ) ->
             dict_get (param_name p) kvs1 = dict_get (param_name p) kvs2) ->
  load typ j1 = load typ j2.
Proof.
  intros E1 E2 H.
  set (n := S (Nat.max (value_depth (json_loads j1))
                       (value_depth (json_loads j2)))).
  rewrite (load_with_fuel n typ j1), (load_with_fuel n typ j2)
    by (unfold n; lia).
  unfold n. rewrite !load_fuel_S.
  apply (load_body_agree _ _ _ _ _ _ E1 E2 H).
Qed.

Lemma loads_known_keys (keep : string -> bool) (kvs : list (string * json)) :
  forall d d',
    (forall k, keep k = true -> dict_get k d = dict_get k d') ->
    forall k, keep k = true ->
      dict_get k (fold_left
                    (fun d kv => dict_set (fst kv) (json_loads (snd kv)) d)
                    kvs d)
      = dict_get k (fold_left
                      (fun d kv => dict_set (fst kv) (json_loads (snd kv)) d)
                      (filter (fun kv => keep (fst kv)) kvs) d').
Proof.
  induction kvs as [|[k0 j0] kvs IH]; simpl; intros d d' H k Hk; [auto|].
  destruct (keep k0) eqn:E; simpl; apply IH; try assumption.
  - intros k' Hk'. destruct (String.eqb k' k0) eqn:E'.
    + apply String.eqb_eq in E'; subst.
      rewrite !dict_get_set_same; reflexivity.
    + apply String.eqb_neq in E'.
      rewrite !dict_get_set_other by assumption. auto.
  - intros k' Hk'. rewrite dict_get_set_other; [auto|].
    intros ->. congruence.
Qed.

(** C10: for every target type and every JSON object, [load] gives the
    same outcome, value or exception, on the object and on the object
    from which every key that names no constructor parameter has been
    removed; in particular one more such key, anywhere in the object,
    changes nothing. *)
Theorem unknown_keys_ignored (typ : pytype) (kvs : list (string * json)) :
  load typ (JObj kvs) = load typ (JObj (known_keys_only typ kvs))
  /\ forall front back k j,
      kvs = (front ++ back)%list ->
      is_parameter_name typ k = false ->
      load typ (JObj (front ++ (k, j) :: back)%list) = load typ (JObj kvs).
Proof.
  assert (Hfilter : forall l,
             load typ (JObj l) = load typ (JObj (known_keys_only typ l))).
  { intros l. eapply load_agree; [reflexivity | reflexivity |].
    intros p Hp. apply loads_known_keys; [auto|].
    unfold is_parameter_name. apply existsb_exists.
    exists p. split; [assumption | apply String.eqb_refl]. }
  split; [apply Hfilter|].
  intros front back k j -> Hk.
  rewrite (Hfilter (front ++ (k, j) :: back)%list),
    (Hfilter (front ++ back)%list).
  unfold known_keys_only. rewrite !filter_app. simpl. rewrite Hk. reflexivity.
Qed.

(** ** A boolean where an [int] is declared *)

Lemma py_getitem_present (data : value) (k : string) (v : value) :
  py_getitem data k = Ok v -> py_in k data = Ok true.
Proof.
  destruct data; simpl; try discriminate. unfold dict_mem.
  destruct (dict_get k kvs); [reflexivity | discriminate].
Qed.

Lemma deserialize_step_primitive
      (load_rec : pytype -> json -> outcome value) (data : value)
      (acc : list (string * value)) (p : param) (v : value) :
  param_name p <> "self" ->
  py_getitem data (param_name p) = Ok v ->
  is_primitive_type (param_annotation p) = true ->
  deserialize_step load_rec data acc p = Ok (dict_set (param_name p) v acc).
Proof.
  intros Hself Hv Hprim. unfold deserialize_step.
  apply String.eqb_neq in Hself.
  rewrite Hself, (py_getitem_present _ _ _ Hv). simpl.
  rewrite Hv. simpl. rewrite Hprim. reflexivity.
Qed.

Lemma deserialize_loop_primitive
      (load_rec : pytype -> json -> outcome value) (data : value)
      (ps : list param) (p : param) (v : value) :
  forall acc args,
    for_params (deserialize_step load_rec data) ps acc = Ok args ->
    NoDup (map param_name ps) ->
    In p ps ->
    param_name p <> "self" ->
    py_getitem data (param_name p) = Ok v ->
    is_primitive_type (param_annotation p) = true ->
    dict_get (param_name p) args = Some v.
Proof.
  induction ps as [|q ps IH]; simpl; intros acc args H Hnd Hin Hself Hv Hprim;
    [contradiction|].
  apply bind_ok in H as (acc' & Hq & H).
  inversion Hnd as [|? ? Hq_fresh Hnd']; subst.
  destruct Hin as [-> | Hin].
  - rewrite (deserialize_loop_other _ _ _ _ _ _ H Hq_fresh).
    rewrite (deserialize_step_primitive _ _ _ _ _ Hself Hv Hprim) in Hq.
    inversion Hq. apply dict_get_set_same.
  - apply (IH _ _ H Hnd' Hin Hself Hv Hprim).
Qed.



(** Two JSON objects that differ only in the value of the field [f], which
    is declared with a primitive type that both values pass. *)
Section SameKindOfValue.
Variable load_rec : pytype -> json -> outcome value.
Variables d1 d2 : list (string * value).
Variable p : param.
Variables v1 v2 : value.
Hypothesis other_keys :
  forall k, k <> param_name p -> dict_get k d1 = dict_get k d2.
Hypothesis value1 : dict_get (param_name p) d1 = Some v1.
Hypothesis value2 : dict_get (param_name p) d2 = Some v2.
Hypothesis primitive : is_primitive_type (param_annotation p) = true.
Hypothesis passes1 : isinstance v1 (param_annotation p) = true.
Hypothesis passes2 : isinstance v2 (param_annotation p) = true.
Hypothesis not_self : param_name p <> "self".







End SameKindOfValue.





(** ** The codec on JSON-shaped values *)

Lemma plain_list (l : list value) : plain (VList l) <-> Forall plain l.
Proof.
  simpl. induction l as [|x r IH]; simpl.
  - split; auto.
  - rewrite IH. split.
    + intros [Hx Hr]; constructor; assumption.
    + intros H; inversion H; auto.
Qed.

Lemma plain_dict (kvs : list (string * value)) :
  plain (VDict kvs)
  <-> NoDup (map fst kvs) /\ Forall (fun kv => plain (snd kv)) kvs.
Proof.
  simpl. apply and_iff_compat_l.
  induction kvs as [|kv r IH]; simpl.
  - split; auto.
  - rewrite IH. split.
    + intros [Hx Hr]; constructor; assumption.
    + intros H; inversion H; auto.
Qed.

Lemma json_loads_obj (kvs : list (string * json)) :
  json_loads (JObj kvs) = VDict (loads_items kvs []).
Proof. reflexivity. Qed.

Lemma dict_set_fresh (k : string) (v : value) (d : list (string * value)) :
  ~ In k (map fst d) -> dict_set k v d = (d ++ [(k, v)])%list.
Proof.
  induction d as [|[k' v'] d IH]; simpl; intros H; [reflexivity|].
  destruct (String.eqb k k') eqn:E.
  - apply String.eqb_eq in E. subst. tauto.
  - rewrite IH by tauto. reflexivity.
Qed.

Lemma dict_set_NoDup (k : string) (v : value) (d : list (string * value)) :
  NoDup (map fst d) -> NoDup (map fst (dict_set k v d)).
Proof.
  induction d as [|[k' v'] d IH]; simpl; intros H.
  - constructor; [simpl; tauto | constructor].
  - inversion H as [|? ? Hfresh Hd]; subst.
    destruct (String.eqb k k') eqn:E; simpl.
    + apply String.eqb_eq in E; subst. constructor; assumption.
    + constructor; [|auto].
      intros Hin. apply dict_set_keys in Hin as [-> | Hin]; [|contradiction].
      rewrite String.eqb_refl in E; discriminate.
Qed.

Lemma written_float_idem (f : Z) :
  written_float (written_float f) = written_float f.
Proof.
  unfold written_float. destruct (is_nan f) eqn:E; [reflexivity|].
  rewrite E. reflexivity.
Qed.

Lemma json_loads_plain (j : json) : plain (json_loads j).
Proof.
  induction j using json_nested_ind; try exact I.
  - apply written_float_idem.
  - apply plain_list. rewrite Forall_map. assumption.
  - rewrite json_loads_obj. apply plain_dict. unfold loads_items.
    assert (Hacc : NoDup (map fst (@nil (string * value)))
                   /\ Forall (fun kv : string * value => plain (snd kv)) [])
      by (split; constructor).
    revert Hacc. generalize (@nil (string * value)) as d.
    induction H as [|kv r Hkv _ IH]; simpl; intros d [Hnd Hd]; [auto|].
    apply IH. split.
    + apply dict_set_NoDup; assumption.
    + apply dict_set_Forall; assumption.
Qed.






(** Every NaN is read back as [float('nan')], whatever its sign and
    payload were. *)
Lemma nan_read_back (f : Z) :
  is_nan f = true ->
  (s <- json_dumps (VFloat f) ;; Ok (json_loads s)) = Ok (VFloat nan_bits).
Proof.
  intros H. simpl. unfold written_float. rewrite H. reflexivity.
Qed.


(** ** The loop of [_serialize] *)

Lemma for_members_ext
      (body body' : list (string * value) -> string * value ->
                    outcome (list (string * value)))
      (ms : list (string * value)) :
  (forall acc m, body acc m = body' acc m) ->
  forall acc, for_members body ms acc = for_members body' ms acc.
Proof.
  intros H. induction ms as [|m ms IH]; simpl; intros acc; [reflexivity|].
  rewrite H. destruct (body' acc m); simpl; auto.
Qed.

Lemma _serialize_body_unfold (dumps_rec : value -> outcome json)
      (obj : value) :
  _serialize_body dumps_rec obj
  = (serialized_data <-
       for_members
         (fun acc m =>
            o <- member_image dumps_rec obj m ;; Ok (store_image acc m o))
         (getmembers obj) [] ;;
     json_dumps (VDict serialized_data)).
Proof.
  unfold _serialize_body. f_equal. apply for_members_ext.
  intros acc m. unfold member_image.
  destruct (String.prefix "__" (fst m)); [reflexivity|].
  destruct (is_property (snd m)); [reflexivity|].
  destruct (hasattr obj (fst m)); [|reflexivity].
  destruct (getattr obj (fst m)) as [v| |]; simpl; try reflexivity.
  destruct (is_primitive_value v); [reflexivity|].
  destruct (dumps_rec v); reflexivity.
Qed.

Lemma _serialize_S (n : nat) (obj : value) :
  _serialize (S n) obj = _serialize_body (_serialize n) obj.
Proof. reflexivity. Qed.

Lemma sort_by_name_perm (l : list (string * value)) :
  Permutation (sort_by_name l) l.
Proof.
  assert (Hins : forall x r, Permutation (insert_by_name x r) (x :: r)).
  { intros x r. induction r as [|y r IH]; simpl; [reflexivity|].
    destruct (String.leb (fst x) (fst y)); [reflexivity|].
    rewrite IH. apply perm_swap. }
  induction l as [|x l IH]; simpl; [reflexivity|].
  rewrite Hins. constructor. assumption.
Qed.

Lemma in_getmembers (obj : value) (m : string * value) :
  In m (getmembers obj) <-> In m (dir_entries obj).
Proof.
  unfold getmembers. split; apply Permutation_in;
    [|symmetry]; apply sort_by_name_perm.
Qed.

Lemma dict_get_In_keys (k : string) (d : list (string * value)) :
  In k (map fst d) -> dict_get k d <> None.
Proof.
  induction d as [|[k' v'] d IH]; simpl; [tauto|].
  destruct (String.eqb k k') eqn:E; [discriminate|].
  apply String.eqb_neq in E. intros [H | H]; [congruence | auto].
Qed.

Lemma hasattr_member (obj : value) (m : string * value) :
  In m (getmembers obj) -> hasattr obj (fst m) = true.
Proof.
  intros H. unfold hasattr, dict_mem.
  destruct (dict_get (fst m) (getmembers obj)) eqn:E; [reflexivity|].
  exfalso. apply (dict_get_In_keys _ _ (in_map fst _ _ H) E).
Qed.

Lemma dict_set_keys_iff (k k0 : string) (v : value)
      (d : list (string * value)) :
  In k0 (map fst (dict_set k v d)) <-> k0 = k \/ In k0 (map fst d).
Proof.
  split; [apply dict_set_keys|].
  induction d as [|[k' v'] d IH]; simpl.
  - intros [H | []]; auto.
  - destruct (String.eqb k k') eqn:E; simpl.
    + apply String.eqb_eq in E; subst. intros [H | [H | H]]; auto.
    + intros [H | [H | H]]; auto.
Qed.

Section SerializedKeys.
Variable dumps_rec : value -> outcome json.
Variable obj : value.

Lemma member_image_some (m : string * value) (o : option value) :
  In m (getmembers obj) ->
  member_image dumps_rec obj m = Ok o ->
  (o <> None
   <-> String.prefix "__" (fst m) = false /\ is_property (snd m) = false).
Proof.
  intros Hm. unfold member_image. rewrite (hasattr_member _ _ Hm).
  destruct (String.prefix "__" (fst m));
    [intros H; inversion H; intuition congruence|].
  destruct (is_property (snd m));
    [intros H; inversion H; intuition congruence|].
  intros H. apply bind_ok in H as (v & _ & H).
  destruct (is_primitive_value v).
  - inversion H. intuition congruence.
  - apply bind_ok in H as (s & _ & H). inversion H. intuition congruence.
Qed.

Lemma serialize_loop_keys (ms : list (string * value)) :
  (forall m, In m ms -> In m (getmembers obj)) ->
  forall acc sd,
    for_members
      (fun acc m =>
         o <- member_image dumps_rec obj m ;; Ok (store_image acc m o))
      ms acc = Ok sd ->
    forall k,
      In k (map fst sd)
      <-> In k (map fst acc)
          \/ exists v, In (k, v) ms /\ String.prefix "__" k = false
                       /\ is_property v = false.
Proof.
  induction ms as [|m ms IH]; simpl; intros Hms acc sd H k.
  - inversion H; subst. split; [auto|]. intros [? | (v & [] & _)]; auto.
  - apply bind_ok in H as (acc' & Hm & H).
    apply bind_ok in Hm as (o & Ho & Hm). inversion Hm; subst acc'; clear Hm.
    rewrite (IH (fun m' Hm' => Hms m' (or_intror Hm')) _ _ H k).
    pose proof (member_image_some _ _ (Hms m (or_introl eq_refl)) Ho) as Hsome.
    destruct m as [name v0]. simpl in *.
    destruct o as [w|]; simpl.
    + rewrite dict_set_keys_iff.
      assert (He : String.prefix "__" name = false /\ is_property v0 = false)
        by (apply Hsome; discriminate).
      split.
      * intros [[-> | Hk] | (v & Hv & Hp)]; try solve [eauto 6];
          right; exists v0; tauto.
      * intros [Hk | (v & [Hv | Hv] & Hp)]; try solve [eauto 6];
          inversion Hv; subst; auto.
    + assert (He : ~ (String.prefix "__" name = false
                      /\ is_property v0 = false))
        by (intros He; apply Hsome in He; congruence).
      split.
      * intros [Hk | (v & Hv & Hp)]; eauto 6.
      * intros [Hk | (v & [Hv | Hv] & Hp)]; try solve [eauto 6];
          inversion Hv; subst; tauto.
Qed.
End SerializedKeys.

Lemma dumps_items_keys (kvs : list (string * value)) :
  forall js, dumps_items kvs = Ok js -> map fst js = map fst kvs.
Proof.
  induction kvs as [|[k x] r IH]; simpl; intros js H.
  - inversion H; reflexivity.
  - apply bind_ok in H as (j & _ & H). apply bind_ok in H as (js' & Hjs & H).
    inversion H; subst. simpl. rewrite (IH _ Hjs). reflexivity.
Qed.

(** ** The keys of a serialized object *)




(** ** The recursion budget of [_serialize] is enough *)

Lemma methods_value (names : list string) (k : string) (v : value) :
  In (k, v) (methods names) -> v = VMethod.
Proof.
  unfold methods. intros H. apply in_map_iff in H as (n & H & _).
  inversion H; reflexivity.
Qed.

Ltac member_cases H :=
  repeat (apply in_app_or in H as [H | H]);
  try (apply methods_value in H; auto);
  simpl in H;
  repeat (destruct H as [H | H]; [inversion H; subst; simpl in *; auto|]);
  try contradiction.

Lemma dir_entries_values (obj : value) (k : string) (v : value) :
  In (k, v) (dir_entries obj) ->
  is_primitive_value v = false ->
  value_depth v < value_depth obj \/ v = VMethod \/ v = VNone.
Proof.
  intros H Hnp. destruct obj; simpl dir_entries in H.
  1-9: right; member_cases H; try discriminate.
  left. simpl. apply in_app_or in H as [H | H].
  - pose proof (in_depth_lt (fun kv => value_depth (snd kv)) _ _ H). simpl in *.
    lia.
  - apply filter_In in H as [H _].
    pose proof (in_depth_lt (fun kv => value_depth (snd kv)) _ _ H). simpl in *.
    lia.
Qed.

Lemma getattr_member (obj : value) (k : string) (v : value) :
  getattr obj k = Ok v -> In (k, v) (dir_entries obj).
Proof.
  unfold getattr. destruct (dict_get k (getmembers obj)) eqn:E; [|discriminate].
  intros H; inversion H; subst.
  apply in_getmembers, dict_get_In; assumption.
Qed.

Lemma member_image_ext (dumps_rec dumps_rec' : value -> outcome json)
      (obj : value) (m : string * value) :
  (forall k v, In (k, v) (dir_entries obj) -> is_primitive_value v = false ->
               dumps_rec v = dumps_rec' v) ->
  member_image dumps_rec obj m = member_image dumps_rec' obj m.
Proof.
  intros H. unfold member_image.
  destruct (String.prefix "__" (fst m)); [reflexivity|].
  destruct (is_property (snd m)); [reflexivity|].
  destruct (hasattr obj (fst m)); [|reflexivity].
  destruct (getattr obj (fst m)) as [v| |] eqn:Ev; simpl; try reflexivity.
  destruct (is_primitive_value v) eqn:Ep; [reflexivity|].
  rewrite (H _ _ (getattr_member _ _ _ Ev) Ep). reflexivity.
Qed.

Lemma _serialize_body_ext (dumps_rec dumps_rec' : value -> outcome json)
      (obj : value) :
  (forall k v, In (k, v) (dir_entries obj) -> is_primitive_value v = false ->
               dumps_rec v = dumps_rec' v) ->
  _serialize_body dumps_rec obj = _serialize_body dumps_rec' obj.
Proof.
  intros H. rewrite !_serialize_body_unfold. f_equal.
  apply for_members_ext. intros acc m.
  rewrite (member_image_ext _ _ _ m H). reflexivity.
Qed.

Lemma _serialize_method (n : nat) : _serialize (S n) VMethod = Ok (JObj []).
Proof. reflexivity. Qed.

Lemma _serialize_none (n : nat) : _serialize (S n) VNone = Ok (JObj []).
Proof. reflexivity. Qed.

Lemma _serialize_enough (n : nat) :
  forall m obj,
    S (value_depth obj) < n -> S (value_depth obj) < m ->
    _serialize n obj = _serialize m obj.
Proof.
  induction n as [|n IH]; intros m obj Hn Hm; [lia|].
  destruct m as [|m]; [lia|].
  rewrite !_serialize_S. apply _serialize_body_ext. intros k v Hv Hnp.
  destruct (dir_entries_values _ _ _ Hv Hnp) as [Hd | [-> | ->]].
  - apply IH; lia.
  - destruct n; [lia|]. destruct m; [lia|]. reflexivity.
  - destruct n; [lia|]. destruct m; [lia|]. reflexivity.
Qed.

Lemma dumps_with_fuel (n : nat) (typ : pytype) (obj : value) :
  S (value_depth obj) < n -> dumps typ obj = _serialize n obj.
Proof. intros H. unfold dumps. apply _serialize_enough; lia. Qed.

(** ** Round trip of one field *)





Lemma for_members_fuel
      (body : list (string * value) -> string * value ->
              outcome (list (string * value)))
      (ms : list (string * value)) (acc : list (string * value)) :
  for_members body ms acc = OutOfFuel ->
  exists acc' m, In m ms /\ body acc' m = OutOfFuel.
Proof.
  revert acc; induction ms as [|m ms IH]; simpl; intros acc H; [discriminate|].
  apply bind_fuel in H as [H | (acc' & _ & H)].
  - exists acc, m; auto.
  - destruct (IH _ H) as (acc'' & m' & Hm' & Hb). exists acc'', m'; auto.
Qed.

Lemma _serialize_total (n : nat) :
  forall obj, S (value_depth obj) < n -> _serialize n obj <> OutOfFuel.
Proof.
  induction n as [|n IH]; intros obj Hn; [lia|].
  rewrite _serialize_S, _serialize_body_unfold. intros H.
  apply bind_fuel in H as [H | (sd & _ & H)];
    [|exact (json_dumps_total _ H)].
  apply for_members_fuel in H as (acc & m & _ & H).
  apply bind_fuel in H as [H | (o & _ & H)]; [|discriminate].
  unfold member_image in H.
  destruct (String.prefix "__" (fst m)); [discriminate|].
  destruct (is_property (snd m)); [discriminate|].
  destruct (hasattr obj (fst m)); [|discriminate].
  destruct (getattr obj (fst m)) as [v|e|] eqn:Ev; simpl in H;
    [|discriminate|].
  - destruct (is_primitive_value v) eqn:Ep; [discriminate|].
    apply bind_fuel in H as [H | (s & _ & H)]; [|discriminate].
    destruct (dir_entries_values _ _ _ (getattr_member _ _ _ Ev) Ep)
      as [Hd | [-> | ->]].
    + apply (IH v); [lia | assumption].
    + destruct n; [lia | discriminate].
    + destruct n; [lia | discriminate].
  - unfold getattr in Ev. destruct (dict_get _ _); discriminate.
Qed.

(** [dumps] always returns or raises: the budget it is given suffices. *)
Lemma dumps_total (typ : pytype) (obj : value) : dumps typ obj <> OutOfFuel.
Proof. apply _serialize_total. lia. Qed.

(** ** Serialization of a conforming instance *)

Lemma dict_get_NoDup_In (k : string) (v : value) (d : list (string * value)) :
  NoDup (map fst d) -> In (k, v) d -> dict_get k d = Some v.
Proof.
  induction d as [|[k' v'] d IH]; simpl; intros Hnd Hin; [contradiction|].
  inversion Hnd as [|? ? Hfresh Hnd']; subst.
  destruct Hin as [Hin | Hin].
  - inversion Hin; subst. rewrite String.eqb_refl. reflexivity.
  - destruct (String.eqb k k') eqn:E; [|auto].
    apply String.eqb_eq in E; subst. exfalso. apply Hfresh.
    apply (in_map fst _ _ Hin).
Qed.

Lemma getmembers_NoDup (obj : value) :
  NoDup (map fst (dir_entries obj)) -> NoDup (map fst (getmembers obj)).
Proof.
  apply Permutation_NoDup. apply Permutation_map. symmetry.
  apply sort_by_name_perm.
Qed.

Lemma getattr_NoDup (obj : value) (k : string) (v : value) :
  NoDup (map fst (dir_entries obj)) ->
  In (k, v) (dir_entries obj) ->
  hasattr obj k = true /\ getattr obj k = Ok v.
Proof.
  intros Hnd Hin. apply in_getmembers in Hin.
  split; [apply (hasattr_member _ _ Hin)|].
  unfold getattr.
  rewrite (dict_get_NoDup_In _ _ _ (getmembers_NoDup _ Hnd) Hin). reflexivity.
Qed.

Section SerializeLoop.
Variable dumps_rec : value -> outcome json.
Variable obj : value.



End SerializeLoop.




Section InstanceMembers.
Variables (cn : string) (ca attrs : list (string * value)).
Let obj : value := VInst cn ca attrs.
Let dumps_rec : value -> outcome json := _serialize (S (value_depth obj)).
Hypothesis dir_NoDup : NoDup (map fst (dir_entries obj)).


End InstanceMembers.





(** ** Loading the serialized instance back *)


Section LoadingLoops.
Variable load_rec : pytype -> json -> outcome value.
Variable data : value.



End LoadingLoops.


(** ** Round trip *)





(** * Further properties of [load] and [dumps] *)

(** ** The exception [_serialize] raises *)

Lemma for_members_raise
      (body : list (string * value) -> string * value ->
              outcome (list (string * value)))
      (ms : list (string * value)) (acc : list (string * value)) (e : exn) :
  for_members body ms acc = Raise e ->
  exists acc' m, In m ms /\ body acc' m = Raise e.
Proof.
  revert acc; induction ms as [|m ms IH]; simpl; intros acc H; [discriminate|].
  apply bind_raise in H as [H | (acc' & _ & H)].
  - exists acc, m; auto.
  - destruct (IH _ H) as (acc'' & m' & Hm' & Hb). exists acc'', m'; auto.
Qed.

Lemma getattr_after_hasattr (obj : value) (name : string) (e : exn) :
  hasattr obj name = true -> getattr obj name <> Raise e.
Proof.
  unfold hasattr, dict_mem, getattr.
  destruct (dict_get name (getmembers obj)); discriminate.
Qed.

Lemma _serialize_raises (n : nat) :
  forall obj e, _serialize n obj = Raise e -> e = not_serializable.
Proof.
  induction n as [|n IH]; intros obj e H; [discriminate|].
  rewrite _serialize_S, _serialize_body_unfold in H.
  apply bind_raise in H as [H | (sd & _ & H)];
    [|exact (json_dumps_raise _ _ H)].
  apply for_members_raise in H as (acc & m & _ & H).
  apply bind_raise in H as [H | (o & _ & H)]; [|discriminate].
  unfold member_image in H.
  destruct (String.prefix "__" (fst m)); [discriminate|].
  destruct (is_property (snd m)); [discriminate|].
  destruct (hasattr obj (fst m)) eqn:Ehas; [|discriminate].
  apply bind_raise in H as [H | (v & _ & H)].
  - exfalso. exact (getattr_after_hasattr _ _ _ Ehas H).
  - destruct (is_primitive_value v); [discriminate|].
    apply bind_raise in H as [H | (s & _ & H)]; [|discriminate].
    apply (IH _ _ H).
Qed.

(** ** What a successful [load] guarantees *)

Lemma for_params_unit_all (body : unit -> param -> outcome unit)
      (ps : list param) :
  for_params body ps tt = Ok tt ->
  forall p, In p ps -> body tt p = Ok tt.
Proof.
  induction ps as [|q ps IH]; simpl; intros H p Hp; [contradiction|].
  apply bind_ok in H as ([] & Hq & H).
  destruct Hp as [<- | Hp]; [assumption | auto].
Qed.

Lemma load_ok_verified (typ : pytype) (json_str : json) (x : value) :
  load typ json_str = Ok x ->
  forall p, In p (init_signature typ) ->
            verify_step (load_fuel (json_depth json_str))
                        (json_loads json_str) tt p = Ok tt.
Proof.
  intros H. apply load_ok_inv in H as (_ & H & _).
  rewrite verify_members_unfold in H. apply (for_params_unit_all _ _ H).
Qed.

(** X4: [load] never returns when a constructor parameter without default
    is missing from the JSON document, wherever the parameter stands in the
    signature and whatever else the document holds: on success every such
    parameter is found in the document. *)
Theorem load_requires_fields_without_default (typ : pytype) (json_str : json)
        (x : value) (p : param) :
  load typ json_str = Ok x ->
  In p (init_signature typ) ->
  param_name p <> "self" ->
  param_default p = None ->
  py_in (param_name p) (json_loads json_str) = Ok true.
Proof.
  intros H Hp Hself Hnone.
  pose proof (load_ok_verified _ _ _ H p Hp) as Hv.
  unfold verify_step in Hv. apply String.eqb_neq in Hself.
  rewrite Hself in Hv.
  destruct (py_in (param_name p) (json_loads json_str)) as [[|]| |];
    simpl in Hv; try discriminate; [reflexivity|].
  rewrite Hnone in Hv. discriminate.
Qed.

Lemma load_requires_fields_without_default_witness :
  py_in "id" (json_loads (JObj [("id", JInt 7); ("note", JStr "n")]))
  = Ok true.
Proof.
  apply (load_requires_fields_without_default
           (T_class Examples.Inner) (JObj [("id", JInt 7); ("note", JStr "n")])
           (VInst "Inner" (methods Examples.std_names) [("id", VInt 7)])
           (MkParam "id" T_int None)).
  - reflexivity.
  - simpl; auto.
  - simpl; discriminate.
  - reflexivity.
Defined.

(** ** Values of the wrong kind *)

Lemma py_getitem_plain (data : value) (k : string) (v : value) :
  plain data -> py_getitem data k = Ok v -> plain v.
Proof.
  destruct data; simpl py_getitem; try discriminate. intros Hp H.
  destruct (dict_get k kvs) as [w|] eqn:E; [|discriminate].
  inversion H; subst w. apply plain_dict in Hp as [_ Hp].
  rewrite Forall_forall in Hp. apply (Hp (k, v)), dict_get_In, E.
Qed.

Lemma isinstance_plain (v : value) (typ : pytype) :
  plain v -> is_primitive_type typ = false -> isinstance v typ = false.
Proof.
  destruct typ, v; simpl; intros Hp Ht;
    try reflexivity; try discriminate; contradiction.
Qed.

Lemma builtin_initializer_count (typ : pytype) :
  is_class typ = false -> initializer_count typ = 1%nat.
Proof. destruct typ; simpl; intros H; try reflexivity; discriminate. Qed.

Lemma builtin_signature (typ : pytype) :
  is_class typ = false -> init_signature typ = slot_wrapper_signature.
Proof. destruct typ; simpl; intros H; try reflexivity; discriminate. Qed.

Lemma load_fuel_builtin_fails (n : nat) :
  forall typ json_str x,
    is_class typ = false -> load_fuel n typ json_str <> Ok x.
Proof.
  induction n as [|n IH]; intros typ json_str x Hb H; [discriminate|].
  rewrite load_fuel_S, (load_body_one _ _ _ (builtin_initializer_count _ Hb))
    in H.
  apply bind_ok in H as ([] & H & _).
  rewrite verify_members_unfold, (builtin_signature _ Hb) in H.
  pose proof (for_params_unit_all _ _ H (MkParam "args" T_empty None)
                                  ltac:(simpl; auto)) as Hv.
  unfold verify_step in Hv. simpl param_name in Hv. simpl String.eqb in Hv.
  cbv iota in Hv.
  destruct (py_in "args" (json_loads json_str)) as [[|]| |]; simpl in Hv;
    try discriminate.
  destruct (py_getitem (json_loads json_str) "args") as [v| |] eqn:Ev;
    simpl in Hv; try discriminate.
  unfold _verify_member_type in Hv. simpl param_annotation in Hv.
  rewrite (isinstance_plain v T_empty
             (py_getitem_plain _ _ _ (json_loads_plain json_str) Ev) eq_refl)
    in Hv.
  simpl in Hv.
  destruct (json_dumps v) as [s| e |]; simpl in Hv;
    [|destruct e; discriminate | discriminate].
  destruct (load_fuel n T_empty s) as [y| e |] eqn:El;
    [|destruct e; discriminate | discriminate].
  apply (IH T_empty s y eq_refl El).
Qed.

(** X5: [load] never returns when the document holds, for a parameter
    declared [int], [float], [bool], [str] or [list], a value that does not
    pass [isinstance] for that type; on success every present field of a
    primitive type passed the test.  The fallback, loading the value as the
    builtin type, cannot succeed. *)
Theorem load_rejects_wrong_primitive (typ : pytype) (json_str : json)
        (x : value) (p : param) (v : value) :
  load typ json_str = Ok x ->
  In p (init_signature typ) ->
  param_name p <> "self" ->
  is_primitive_type (param_annotation p) = true ->
  py_getitem (json_loads json_str) (param_name p) = Ok v ->
  isinstance v (param_annotation p) = true.
Proof.
  intros H Hp Hself Hprim Hv.
  pose proof (load_ok_verified _ _ _ H p Hp) as Hok.
  unfold verify_step in Hok. apply String.eqb_neq in Hself.
  rewrite Hself, (py_getitem_present _ _ _ Hv) in Hok. simpl bind in Hok.
  rewrite Hv in Hok. simpl bind in Hok. unfold _verify_member_type in Hok.
  destruct (isinstance v (param_annotation p)); [reflexivity|].
  simpl in Hok.
  destruct (json_dumps v) as [s| e |]; simpl in Hok;
    [|destruct e; discriminate | discriminate].
  destruct (load_fuel (json_depth json_str) (param_annotation p) s)
    as [y| e |] eqn:El; [|destruct e; discriminate | discriminate].
  exfalso. apply (load_fuel_builtin_fails _ _ _ y) in El; [assumption|].
  destruct (param_annotation p); simpl in *; try reflexivity; discriminate.
Qed.

Lemma load_rejects_wrong_primitive_witness :
  isinstance (VBool true) T_int = true.
Proof.
  apply (load_rejects_wrong_primitive
           (T_class Examples.Inner) (JObj [("id", JBool true)])
           (VInst "Inner" (methods Examples.std_names) [("id", VBool true)])
           (MkParam "id" T_int None) (VBool true)).
  - reflexivity.
  - simpl; auto.
  - simpl; discriminate.
  - reflexivity.
  - reflexivity.
Defined.

(** X6: a parameter without annotation cannot be supplied from JSON:
    [load] never returns when the document holds a value for it, since no
    JSON value is an instance of [inspect._empty] and loading one as
    [inspect._empty] cannot succeed. *)
Theorem load_rejects_unannotated_field (typ : pytype) (json_str : json)
        (p : param) :
  In p (init_signature typ) ->
  param_name p <> "self" ->
  param_annotation p = T_empty ->
  py_in (param_name p) (json_loads json_str) = Ok true ->
  exists e, load typ json_str = Raise e.
Proof.
  intros Hp Hself Hann Hin.
  destruct (load typ json_str) as [x| e |] eqn:H;
    [|eauto | exfalso; exact (load_total _ _ H)].
  exfalso.
  pose proof (load_ok_verified _ _ _ H p Hp) as Hok.
  unfold verify_step in Hok. apply String.eqb_neq in Hself.
  rewrite Hself, Hin in Hok. simpl bind in Hok.
  destruct (py_getitem (json_loads json_str) (param_name p)) as [v| |] eqn:Ev;
    simpl in Hok; try discriminate.
  unfold _verify_member_type in Hok. rewrite Hann in Hok.
  rewrite (isinstance_plain v T_empty
             (py_getitem_plain _ _ _ (json_loads_plain json_str) Ev) eq_refl)
    in Hok.
  simpl in Hok.
  destruct (json_dumps v) as [s| e |]; simpl in Hok;
    [|destruct e; discriminate | discriminate].
  destruct (load_fuel (json_depth json_str) T_empty s)
    as [y| e |] eqn:El; [|destruct e; discriminate | discriminate].
  apply (load_fuel_builtin_fails _ T_empty s y eq_refl El).
Qed.

Lemma load_rejects_unannotated_field_witness :
  exists e,
    load (T_class (MkClass "Loose" Examples.std_names
                           [Examples.self; MkParam "x" T_empty None] []))
         (JObj [("x", JInt 1)])
    = Raise e.
Proof.
  apply (load_rejects_unannotated_field _ _ (MkParam "x" T_empty None)).
  - simpl; auto.
  - simpl; discriminate.
  - reflexivity.
  - reflexivity.
Defined.

(** ** What the attributes of the result hold *)

(** X7: no coercion.  When [load] returns, the attribute of a field
    declared [int], [float], [bool], [str] or [list] that is present in
    the document is the parsed JSON value itself. *)
Theorem load_stores_primitive_as_is (c : pyclass) (json_str : json)
        (x : value) (p : param) (v : value) :
  NoDup (map param_name (cls_init_params c)) ->
  load (T_class c) json_str = Ok x ->
  In p (tl (cls_init_params c)) ->
  param_name p <> "self" ->
  is_primitive_type (param_annotation p) = true ->
  py_getitem (json_loads json_str) (param_name p) = Ok v ->
  exists attrs,
    x = VInst (cls_name c) (cls_class_attrs c) attrs
    /\ dict_get (param_name p) attrs = Some v.
Proof.
  intros Hnd H Hin Hself Hprim Hv.
  apply load_ok_inv in H as (_ & _ & H).
  rewrite _deserialize_unfold in H.
  apply bind_ok in H as (args & Hloop & H).
  apply instantiate_class_ok in H as (bound & -> & Hb & _).
  exists bound. split; [reflexivity|].
  destruct (bind_arguments_get _ _ _ _ Hb (NoDup_map_tl _ _ Hnd) Hin)
    as [Hget _].
  simpl init_signature in Hloop.
  rewrite (deserialize_loop_primitive _ _ _ p _ _ _ Hloop Hnd (in_tl _ _ Hin)
                                      Hself Hv Hprim) in Hget.
  exact Hget.
Qed.

Lemma load_stores_primitive_as_is_witness :
  exists attrs,
    VInst "Named" (methods Examples.std_names) [("name", VStr "7")]
    = VInst "Named" (methods Examples.std_names) attrs
    /\ dict_get "name" attrs = Some (VStr "7").
Proof.
  apply (load_stores_primitive_as_is
           Examples.Named (JObj [("name", JStr "7")]) _
           (MkParam "name" T_str None) (VStr "7")).
  - simpl. repeat constructor; simpl; intuition discriminate.
  - reflexivity.
  - simpl; auto.
  - simpl; discriminate.
  - reflexivity.
  - reflexivity.
Defined.

Lemma deserialize_step_nested (load_rec : pytype -> json -> outcome value)
      (data : value) (acc acc' : list (string * value)) (p : param)
      (v : value) :
  param_name p <> "self" ->
  py_getitem data (param_name p) = Ok v ->
  is_primitive_type (param_annotation p) = false ->
  deserialize_step load_rec data acc p = Ok acc' ->
  exists s nested,
    json_dumps v = Ok s
    /\ load_rec (param_annotation p) s = Ok nested
    /\ acc' = dict_set (param_name p) nested acc.
Proof.
  intros Hself Hv Hprim. unfold deserialize_step.
  apply String.eqb_neq in Hself.
  rewrite Hself, (py_getitem_present _ _ _ Hv). simpl bind.
  rewrite Hv. simpl bind. rewrite Hprim. intros H.
  apply bind_ok in H as (s & Hs & H). apply bind_ok in H as (y & Hy & H).
  inversion H. eauto.
Qed.

Lemma deserialize_loop_nested (load_rec : pytype -> json -> outcome value)
      (data : value) (ps : list param) (p : param) (v : value) :
  forall acc args,
    for_params (deserialize_step load_rec data) ps acc = Ok args ->
    NoDup (map param_name ps) ->
    In p ps ->
    param_name p <> "self" ->
    py_getitem data (param_name p) = Ok v ->
    is_primitive_type (param_annotation p) = false ->
    exists s nested,
      json_dumps v = Ok s
      /\ load_rec (param_annotation p) s = Ok nested
      /\ dict_get (param_name p) args = Some nested.
Proof.
  induction ps as [|q ps IH]; simpl; intros acc args H Hnd Hin Hself Hv Hprim;
    [contradiction|].
  apply bind_ok in H as (acc' & Hq & H).
  inversion Hnd as [|? ? Hq_fresh Hnd']; subst.
  destruct Hin as [-> | Hin].
  - destruct (deserialize_step_nested _ _ _ _ _ _ Hself Hv Hprim Hq)
      as (s & nested & Hs & Hn & ->).
    exists s, nested. repeat split; try assumption.
    rewrite (deserialize_loop_other _ _ _ _ _ _ H Hq_fresh).
    apply dict_get_set_same.
  - apply (IH _ _ H Hnd' Hin Hself Hv Hprim).
Qed.

(** X8: nested construction.  When [load] returns, the attribute of a
    field declared with a class that is present in the document is what
    [load] for that class returns on the re-serialized nested value. *)
Theorem load_builds_nested_field (c c' : pyclass) (json_str : json)
        (x : value) (p : param) (v : value) :
  NoDup (map param_name (cls_init_params c)) ->
  load (T_class c) json_str = Ok x ->
  In p (tl (cls_init_params c)) ->
  param_name p <> "self" ->
  param_annotation p = T_class c' ->
  py_getitem (json_loads json_str) (param_name p) = Ok v ->
  exists attrs s nested,
    x = VInst (cls_name c) (cls_class_attrs c) attrs
    /\ json_dumps v = Ok s
    /\ load (T_class c') s = Ok nested
    /\ dict_get (param_name p) attrs = Some nested.
Proof.
  intros Hnd H Hin Hself Hann Hv.
  apply load_ok_inv in H as (_ & _ & H).
  rewrite _deserialize_unfold in H.
  apply bind_ok in H as (args & Hloop & H).
  apply instantiate_class_ok in H as (bound & -> & Hb & _).
  destruct (bind_arguments_get _ _ _ _ Hb (NoDup_map_tl _ _ Hnd) Hin)
    as [Hget _].
  simpl init_signature in Hloop.
  destruct (deserialize_loop_nested _ _ _ p v _ _ Hloop Hnd (in_tl _ _ Hin)
                                    Hself Hv)
    as (s & nested & Hs & Hn & Hargs).
  { rewrite Hann. reflexivity. }
  exists bound, s, nested. repeat split; try assumption.
  - rewrite Hann in Hn. rewrite <- Hn. apply load_with_fuel.
    pose proof (nested_document_depth _ _ _ _ Hv Hs).
    pose proof (json_loads_depth json_str). lia.
  - rewrite Hargs in Hget. exact Hget.
Qed.

Lemma load_builds_nested_field_witness :
  exists attrs s nested,
    VInst "Outer" (methods Examples.std_names)
          [("inner", VInst "Inner" (methods Examples.std_names)
                           [("id", VInt 7)])]
    = VInst "Outer" (methods Examples.std_names) attrs
    /\ json_dumps (VDict [("id", VInt 7)]) = Ok s
    /\ load (T_class Examples.Inner) s = Ok nested
    /\ dict_get "inner" attrs = Some nested.
Proof.
  apply (load_builds_nested_field
           Examples.Outer Examples.Inner
           (JObj [("inner", JObj [("id", JInt 7)])]) _
           (MkParam "inner" (T_class Examples.Inner) None)
           (VDict [("id", VInt 7)])).
  - simpl. repeat constructor; simpl; intuition discriminate.
  - reflexivity.
  - simpl; auto.
  - simpl; discriminate.
  - reflexivity.
  - reflexivity.
Defined.

(** ** Failures of the first field *)

Lemma verify_receivers (load_rec : pytype -> json -> outcome value)
      (data : value) (ps : list param) :
  Forall (fun q => param_name q = "self") ps ->
  for_params (verify_step load_rec data) ps tt = Ok tt.
Proof.
  induction 1 as [|q ps Hq _ IH]; simpl; [reflexivity|].
  unfold verify_step at 1. rewrite Hq. simpl. exact IH.
Qed.

(** X9: how a nested failure surfaces.  When the first field of the
    signature is declared with a class and [load] for that class fails on
    the nested value, [load] for the outer type fails too: a nested
    [DeserializeException] comes back wrapped in a new one that keeps it as
    its cause and quotes its message, any other nested exception comes back
    as it is. *)
Theorem load_reraises_nested_failure
        (typ : pytype) (c' : pyclass) (before after : list param) (p : param)
        (json_str s : json) (v : value) (e : exn) :
  initializer_count typ = 1%nat ->
  init_signature typ = (before ++ p :: after)%list ->
  Forall (fun q => param_name q = "self") before ->
  param_name p <> "self" ->
  param_annotation p = T_class c' ->
  py_getitem (json_loads json_str) (param_name p) = Ok v ->
  json_dumps v = Ok s ->
  load (T_class c') s = Raise e ->
  load typ json_str = Raise (reraised v (T_class c') e).
Proof.
  intros H1 Hsig Hbefore Hself Hann Hv Hs He.
  unfold load at 1. rewrite load_fuel_S, (load_body_one _ _ _ H1).
  rewrite verify_members_unfold, Hsig, for_params_app.
  rewrite (verify_receivers _ _ _ Hbefore). simpl.
  unfold verify_step at 1. apply String.eqb_neq in Hself. rewrite Hself.
  rewrite (py_getitem_present _ _ _ Hv). simpl bind. rewrite Hv. simpl bind.
  unfold _verify_member_type. rewrite Hann.
  rewrite (isinstance_plain v (T_class c')
             (py_getitem_plain _ _ _ (json_loads_plain json_str) Hv) eq_refl).
  simpl negb. cbv iota. rewrite Hs. simpl bind.
  rewrite <- (load_with_fuel (json_depth json_str)), He.
  - destruct e; reflexivity.
  - pose proof (nested_document_depth _ _ _ _ Hv Hs).
    pose proof (json_loads_depth json_str). lia.
Qed.

Lemma load_reraises_nested_failure_witness :
  load (T_class Examples.Outer) (JObj [("inner", JObj [("id", JInt 1);
                                                       ("id", JNull)])])
  = Raise (reraised (VDict [("id", VNone)]) (T_class Examples.Inner)
                    (TypeError "argument is not iterable")).
Proof.
  apply (load_reraises_nested_failure
           (T_class Examples.Outer) Examples.Inner [Examples.self] []
           (MkParam "inner" (T_class Examples.Inner) None) _
           (JObj [("id", JNull)]) (VDict [("id", VNone)])).
  - reflexivity.
  - reflexivity.
  - repeat constructor.
  - simpl; discriminate.
  - reflexivity.
  - reflexivity.
  - reflexivity.
  - reflexivity.
Defined.

(** ** Documents that are not objects, types without fields *)

(** X10: when the JSON text is [null], a boolean or a number and the type
    has a field, [load] raises the [TypeError] of the [in] test on the
    parsed value, not a [DeserializeException]. *)
Theorem load_scalar_document_raises_TypeError
        (typ : pytype) (before after : list param) (p : param)
        (json_str : json) :
  initializer_count typ = 1%nat ->
  init_signature typ = (before ++ p :: after)%list ->
  Forall (fun q => param_name q = "self") before ->
  param_name p <> "self" ->
  json_scalar json_str = true ->
  load typ json_str = Raise (TypeError "argument is not iterable").
Proof.
  intros H1 Hsig Hbefore Hself Hj.
  unfold load. rewrite load_fuel_S, (load_body_one _ _ _ H1).
  rewrite verify_members_unfold, Hsig, for_params_app.
  rewrite (verify_receivers _ _ _ Hbefore). simpl.
  unfold verify_step at 1. apply String.eqb_neq in Hself. rewrite Hself.
  destruct json_str; try discriminate; reflexivity.
Qed.

Lemma load_scalar_document_raises_TypeError_witness :
  load (T_class Examples.Counter) (JInt 3)
  = Raise (TypeError "argument is not iterable").
Proof.
  apply (load_scalar_document_raises_TypeError
           (T_class Examples.Counter) [Examples.self] []
           (MkParam "count" T_int (Some (VInt 0)))).
  - reflexivity.
  - reflexivity.
  - repeat constructor.
  - simpl; discriminate.
  - reflexivity.
Defined.

Lemma steps_without_names (load_rec : pytype -> json -> outcome value)
      (data : value) (p : param) :
  (param_name p <> "self" -> py_in (param_name p) data = Ok false) ->
  (forall u, verify_step load_rec data u p
             = verify_step load_rec (VDict []) u p)
  /\ (forall acc, deserialize_step load_rec data acc p
                  = deserialize_step load_rec (VDict []) acc p).
Proof.
  intros H. unfold verify_step, deserialize_step.
  destruct (String.eqb (param_name p) "self") eqn:E; [auto|].
  apply String.eqb_neq in E. rewrite (H E). auto.
Qed.

(** X11: a document in which no parameter name is found by the [in] test
    is loaded like the empty object [{}]: this holds for an object without
    those keys, and also for a JSON string that contains none of the names
    and a JSON array that holds none of them, which [load] does not
    reject. *)
Theorem load_without_parameter_names (typ : pytype) (json_str : json) :
  (forall p, In p (init_signature typ) ->
             param_name p <> "self" ->
             py_in (param_name p) (json_loads json_str) = Ok false) ->
  load typ json_str = load typ (JObj []).
Proof.
  intros H.
  set (n := S (Nat.max (value_depth (json_loads json_str))
                       (value_depth (json_loads (JObj []))))).
  rewrite (load_with_fuel n typ json_str), (load_with_fuel n typ (JObj []))
    by (unfold n; lia).
  unfold n. rewrite !load_fuel_S.
  destruct (Nat.eq_dec (initializer_count typ) 1) as [H1 | H1].
  - rewrite !(load_body_one _ _ _ H1).
    rewrite !verify_members_unfold, !_deserialize_unfold.
    simpl (json_loads (JObj [])).
    rewrite (for_params_ext_in _ _ _
               (fun u p Hp =>
                  proj1 (steps_without_names _ _ p (H p Hp)) u)).
    rewrite (for_params_ext_in _ _ _
               (fun acc p Hp =>
                  proj2 (steps_without_names _ _ p (H p Hp)) acc)).
    reflexivity.
  - rewrite !(load_body_not_one _ _ _ H1). reflexivity.
Qed.

Lemma load_without_parameter_names_witness :
  load (T_class Examples.Counter) (JStr "hello")
  = load (T_class Examples.Counter) (JObj []).
Proof.
  apply (load_without_parameter_names (T_class Examples.Counter)
                                      (JStr "hello")).
  intros p [<- | [<- | []]] Hself.
  - exfalso. apply Hself. reflexivity.
  - reflexivity.
Defined.

(** ** Lists are copied, not serialized *)

Lemma serialize_loop_values (dumps_rec : value -> outcome json) (obj : value)
      (ms : list (string * value)) :
  forall acc sd,
    for_members
      (fun acc m =>
         o <- member_image dumps_rec obj m ;; Ok (store_image acc m o))
      ms acc = Ok sd ->
    forall k w,
      dict_get k sd = Some w ->
      dict_get k acc = Some w
      \/ exists m, In m ms /\ fst m = k
                   /\ member_image dumps_rec obj m = Ok (Some w).
Proof.
  induction ms as [|m ms IH]; simpl; intros acc sd H k w Hw.
  - inversion H; subst. auto.
  - apply bind_ok in H as (acc' & Hm & H).
    apply bind_ok in Hm as (o & Ho & Hm). inversion Hm; subst acc'; clear Hm.
    destruct (IH _ _ H k w Hw) as [Hacc | (m' & Hm' & Hk & Hi)];
      [|right; exists m'; auto].
    destruct o as [w0|]; simpl in Hacc; [|auto].
    destruct (String.eqb k (fst m)) eqn:E.
    + apply String.eqb_eq in E. subst k.
      rewrite dict_get_set_same in Hacc. inversion Hacc; subst w0.
      right. exists m. auto.
    + apply String.eqb_neq in E.
      rewrite dict_get_set_other in Hacc by assumption. auto.
Qed.

Lemma dumps_items_each (kvs : list (string * value)) :
  forall js, dumps_items kvs = Ok js ->
             forall kv, In kv kvs -> exists s, json_dumps (snd kv) = Ok s.
Proof.
  induction kvs as [|[k x] r IH]; simpl; intros js H kv Hkv; [contradiction|].
  apply bind_ok in H as (j & Hj & H). apply bind_ok in H as (js' & Hjs & H).
  destruct Hkv as [<- | Hkv]; [eauto | apply (IH _ Hjs _ Hkv)].
Qed.

(** X12: [_serialize] copies a list attribute without looking into it, so
    [dumps] raises [TypeError] whenever a serialized attribute is a list
    that [json.dumps] cannot write, such as a list holding an instance of a
    user class. *)
Theorem dumps_fails_on_list_of_objects
        (typ : pytype) (obj : value) (k : string) (v : value)
        (l : list value) (e : exn) :
  In (k, v) (getmembers obj) ->
  String.prefix "__" k = false ->
  is_property v = false ->
  getattr obj k = Ok (VList l) ->
  json_dumps (VList l) = Raise e ->
  dumps typ obj = Raise not_serializable.
Proof.
  intros Hin Hpre Hprop Hget Hl.
  destruct (dumps typ obj) as [j| e' |] eqn:H.
  - exfalso. unfold dumps in H.
    rewrite _serialize_S, _serialize_body_unfold in H.
    apply bind_ok in H as (sd & Hloop & H).
    assert (Hk : In k (map fst sd)).
    { apply (serialize_loop_keys _ _ _ (fun m Hm => Hm) _ _ Hloop k).
      right. exists v. auto. }
    destruct (dict_get k sd) as [w|] eqn:Ew;
      [|exact (dict_get_In_keys _ _ Hk Ew)].
    destruct (serialize_loop_values _ _ _ _ _ Hloop k w Ew)
      as [Hnil | (m & _ & Hm & Hi)]; [discriminate|].
    unfold member_image in Hi. rewrite Hm in Hi.
    destruct (String.prefix "__" k); [discriminate|].
    destruct (is_property (snd m)); [discriminate|].
    destruct (hasattr obj k); [|discriminate].
    rewrite Hget in Hi. simpl in Hi. inversion Hi; subst w.
    rewrite json_dumps_dict in H. apply bind_ok in H as (js & Hjs & _).
    destruct (dumps_items_each _ _ Hjs _ (dict_get_In _ _ _ Ew)) as (s & Hs).
    simpl snd in Hs. congruence.
  - f_equal. apply (_serialize_raises _ _ _ H).
  - exfalso. exact (dumps_total _ _ H).
Qed.

Lemma dumps_fails_on_list_of_objects_witness :
  dumps (T_class Examples.Outer)
        (VInst "Team" [] [("members", VList [Examples.an_outer])])
  = Raise not_serializable.
Proof.
  apply (dumps_fails_on_list_of_objects
           (T_class Examples.Outer)
           (VInst "Team" [] [("members", VList [Examples.an_outer])])
           "members" (VList [Examples.an_outer]) [Examples.an_outer]
           not_serializable).
  - simpl; auto.
  - reflexivity.
  - reflexivity.
  - reflexivity.
  - reflexivity.
Defined.

(** ** The order of the keys *)

Lemma ascii_compare_lt_trans (x y z : ascii) :
  Ascii.compare x y = Lt -> Ascii.compare y z = Lt -> Ascii.compare x z = Lt.
Proof.
  unfold Ascii.compare. rewrite !N.compare_lt_iff. apply N.lt_trans.
Qed.

Lemma string_compare_le_trans (a : string) :
  forall b c,
    String.compare a b <> Gt -> String.compare b c <> Gt ->
    String.compare a c <> Gt.
Proof.
  induction a as [|x a IH]; intros [|y b] [|z c]; simpl; try congruence.
  destruct (Ascii.compare x y) eqn:Exy; try congruence;
    destruct (Ascii.compare y z) eqn:Eyz; try congruence.
  - apply Ascii.compare_eq_iff in Exy, Eyz. subst.
    replace (Ascii.compare z z) with Eq
      by (symmetry; unfold Ascii.compare; apply N.compare_refl).
    apply IH.
  - apply Ascii.compare_eq_iff in Exy. subst. rewrite Eyz. congruence.
  - apply Ascii.compare_eq_iff in Eyz. subst. rewrite Exy. congruence.
  - rewrite (ascii_compare_lt_trans _ _ _ Exy Eyz). congruence.
Qed.

Lemma name_le_trans (a b c : string) :
  name_le a b -> name_le b c -> name_le a c.
Proof.
  unfold name_le, String.leb. intros Hab Hbc.
  pose proof (string_compare_le_trans a b c) as H.
  destruct (String.compare a b); try discriminate;
    destruct (String.compare b c); try discriminate;
    destruct (String.compare a c); try reflexivity;
    exfalso; apply H; congruence.
Qed.

Lemma insert_by_name_sorted (x : string * value) (l : list (string * value)) :
  StronglySorted (fun a b => name_le (fst a) (fst b)) l ->
  StronglySorted (fun a b => name_le (fst a) (fst b)) (insert_by_name x l).
Proof.
  induction 1 as [|y r Hr IH Hy]; simpl.
  - repeat constructor.
  - destruct (String.leb (fst x) (fst y)) eqn:E.
    + constructor; [constructor; assumption|].
      constructor; [exact E|].
      eapply Forall_impl; [|exact Hy]. intros z Hz.
      apply (name_le_trans _ _ _ E Hz).
    + constructor; [assumption|].
      assert (Hyx : name_le (fst y) (fst x)).
      { destruct (String.leb_total (fst x) (fst y)) as [H | H];
          [congruence | exact H]. }
      assert (Hperm : Permutation (x :: r) (insert_by_name x r)).
      { clear. induction r as [|z r IH]; simpl; [reflexivity|].
        destruct (String.leb (fst x) (fst z)); [reflexivity|].
        rewrite perm_swap. constructor. assumption. }
      eapply Permutation_Forall; [exact Hperm|]. constructor; assumption.
Qed.

Lemma getmembers_sorted (obj : value) :
  StronglySorted (fun a b => name_le (fst a) (fst b)) (getmembers obj).
Proof.
  unfold getmembers, sort_by_name.
  induction (dir_entries obj) as [|x l IH]; simpl; [constructor|].
  apply insert_by_name_sorted; assumption.
Qed.

Lemma StronglySorted_filter {A} (R : A -> A -> Prop) (f : A -> bool)
      (l : list A) :
  StronglySorted R l -> StronglySorted R (filter f l).
Proof.
  induction 1 as [|x l Hl IH Hx]; simpl; [constructor|].
  destruct (f x); [|assumption].
  constructor; [assumption|].
  rewrite Forall_forall in *. intros y Hy. apply filter_In in Hy as [Hy _].
  auto.
Qed.

Lemma StronglySorted_map_fst (l : list (string * value)) :
  StronglySorted (fun a b => name_le (fst a) (fst b)) l ->
  StronglySorted name_le (map fst l).
Proof.
  induction 1 as [|x l Hl IH Hx]; simpl; constructor; [assumption|].
  rewrite Forall_map. assumption.
Qed.

Section SerializedOrder.
Variable dumps_rec : value -> outcome json.
Variable obj : value.

Lemma member_image_is_serialized (m : string * value) (o : option value) :
  In m (getmembers obj) ->
  member_image dumps_rec obj m = Ok o ->
  is_serialized m = match o with Some _ => true | None => false end.
Proof.
  intros Hm Ho. pose proof (member_image_some _ _ _ _ Hm Ho) as H.
  unfold is_serialized.
  destruct o as [w|].
  - destruct H as [H _]. destruct H as [-> ->]; [discriminate | reflexivity].
  - destruct (String.prefix "__" (fst m)); [reflexivity|].
    destruct (is_property (snd m)); [reflexivity|].
    exfalso. destruct H as [_ H]. apply H; auto.
Qed.

Lemma serialize_loop_order (ms : list (string * value)) :
  (forall m, In m ms -> In m (getmembers obj)) ->
  forall acc sd,
    NoDup (map fst acc ++ map fst ms) ->
    for_members
      (fun acc m =>
         o <- member_image dumps_rec obj m ;; Ok (store_image acc m o))
      ms acc = Ok sd ->
    map fst sd = (map fst acc ++ map fst (filter is_serialized ms))%list.
Proof.
  induction ms as [|m ms IH]; simpl; intros Hms acc sd Hnd H.
  - inversion H; subst. rewrite app_nil_r. reflexivity.
  - apply bind_ok in H as (acc' & Hm & H).
    apply bind_ok in Hm as (o & Ho & Hm). inversion Hm; subst acc'; clear Hm.
    rewrite (member_image_is_serialized
               _ _ (Hms m (or_introl eq_refl)) Ho).
    destruct o as [w|]; simpl in H.
    + rewrite dict_set_fresh in H.
      * assert (Hnd' : NoDup (map fst (acc ++ [(fst m, w)]) ++ map fst ms))
          by (rewrite map_app; simpl; rewrite <- app_assoc; exact Hnd).
        rewrite (IH (fun m' Hm' => Hms m' (or_intror Hm')) _ _ Hnd' H).
        rewrite map_app. simpl. rewrite <- app_assoc. reflexivity.
      * apply NoDup_remove_2 in Hnd. intros Hin. apply Hnd.
        apply in_or_app; auto.
    + apply (IH (fun m' Hm' => Hms m' (or_intror Hm')) _ _
                (NoDup_remove_1 _ _ _ Hnd) H).
Qed.
End SerializedOrder.

(** X13: stable field order.  For an object whose members have distinct
    names, the keys of the JSON object [dumps] returns are the names of the
    serialized members in the order of [inspect.getmembers], that is in
    ascending order of name, whatever the order in which the attributes
    were set. *)
Theorem dumps_keys_in_name_order (typ : pytype) (obj : value) (j : json) :
  NoDup (map fst (dir_entries obj)) ->
  dumps typ obj = Ok j ->
  exists kvs,
    j = JObj kvs
    /\ map fst kvs = map fst (filter is_serialized (getmembers obj))
    /\ StronglySorted name_le (map fst kvs).
Proof.
  intros Hnd H. unfold dumps in H.
  rewrite _serialize_S, _serialize_body_unfold in H.
  apply bind_ok in H as (sd & Hloop & H).
  rewrite json_dumps_dict in H. apply bind_ok in H as (js & Hjs & H).
  inversion H; subst j; clear H.
  assert (Hkeys : map fst js
                  = map fst (filter is_serialized (getmembers obj))).
  { rewrite (dumps_items_keys _ _ Hjs).
    refine (serialize_loop_order _ _ _ (fun m Hm => Hm) [] sd _ Hloop).
    simpl. apply getmembers_NoDup; assumption. }
  exists js. split; [reflexivity|]. split; [exact Hkeys|].
  rewrite Hkeys. apply StronglySorted_map_fst, StronglySorted_filter.
  apply getmembers_sorted.
Qed.

Lemma dumps_keys_in_name_order_witness :
  exists kvs,
    JObj [("a", JInt 1); ("b", JInt 2)] = JObj kvs
    /\ map fst kvs
       = map fst (filter is_serialized
                         (getmembers (VInst "P" [("__init__", VMethod)]
                                            [("b", VInt 2); ("a", VInt 1)])))
    /\ StronglySorted name_le (map fst kvs).
Proof.
  apply (dumps_keys_in_name_order
           T_empty (VInst "P" [("__init__", VMethod)]
                          [("b", VInt 2); ("a", VInt 1)])).
  - simpl. repeat constructor; simpl; intuition discriminate.
  - reflexivity.
Defined.

(** ** What the serialized object holds *)

Lemma dumps_items_in (kvs : list (string * value)) :
  forall js k w,
    dumps_items kvs = Ok js ->
    In (k, w) kvs ->
    exists s, json_dumps w = Ok s /\ In (k, s) js.
Proof.
  induction kvs as [|[k0 x] r IH]; simpl; intros js k w H Hin;
    [contradiction|].
  apply bind_ok in H as (j & Hj & H). apply bind_ok in H as (js' & Hjs & H).
  inversion H; subst js; clear H.
  destruct Hin as [Hin | Hin].
  - inversion Hin; subst. exists j. simpl; auto.
  - destruct (IH _ _ _ Hjs Hin) as (s & Hs & Hin'). exists s. simpl; auto.
Qed.

(** X14: how serialization composes.  For an object whose members have
    distinct names, the JSON object [dumps] returns holds, under the name
    of each serialized member, the member's value written by [json.dumps]
    when it is an [int], [float], [bool], [str] or [list], and otherwise
    the document [dumps] returns for that value, parsed and written
    again. *)
Theorem dumps_embeds_members (typ : pytype) (obj : value)
        (kvs : list (string * json)) (k : string) (v : value) :
  NoDup (map fst (dir_entries obj)) ->
  dumps typ obj = Ok (JObj kvs) ->
  In (k, v) (getmembers obj) ->
  is_serialized (k, v) = true ->
  exists s,
    In (k, s) kvs
    /\ if is_primitive_value v then json_dumps v = Ok s
       else exists nested,
           dumps typ v = Ok nested
           /\ json_dumps (json_loads nested) = Ok s.
Proof.
  intros Hnd H Hin Hser. unfold dumps in H.
  rewrite _serialize_S, _serialize_body_unfold in H.
  apply bind_ok in H as (sd & Hloop & H).
  rewrite json_dumps_dict in H. apply bind_ok in H as (js & Hjs & H).
  inversion H; subst kvs; clear H.
  unfold is_serialized in Hser. simpl in Hser.
  apply andb_true_iff in Hser as [Hpre Hprop].
  apply negb_true_iff in Hpre, Hprop.
  assert (Hk : In k (map fst sd)).
  { apply (serialize_loop_keys _ _ _ (fun m Hm => Hm) _ _ Hloop k).
    right. exists v. auto. }
  destruct (dict_get k sd) as [w|] eqn:Ew;
    [|exfalso; exact (dict_get_In_keys _ _ Hk Ew)].
  destruct (dumps_items_in _ _ _ _ Hjs (dict_get_In _ _ _ Ew))
    as (s & Hs & Hks).
  exists s. split; [exact Hks|].
  destruct (serialize_loop_values _ _ _ _ _ Hloop k w Ew)
    as [Hnil | (m & _ & Hm & Hi)]; [discriminate|].
  pose proof Hin as Hdir. apply in_getmembers in Hdir.
  destruct (getattr_NoDup _ _ _ Hnd Hdir) as [Hhas Hget].
  unfold member_image in Hi. rewrite Hm, Hpre, Hhas, Hget in Hi.
  destruct (is_property (snd m)); [discriminate|]. simpl bind in Hi.
  destruct (is_primitive_value v) eqn:Ep.
  - inversion Hi; subst w. exact Hs.
  - apply bind_ok in Hi as (nested & Hn & Hi). inversion Hi; subst w.
    exists nested. split; [|exact Hs].
    change (_serialize (S (value_depth obj)) v = Ok nested) in Hn.
    destruct (dir_entries_values _ _ _ Hdir Ep) as [Hd | [-> | ->]].
    + rewrite <- Hn. apply dumps_with_fuel. lia.
    + rewrite <- Hn. reflexivity.
    + rewrite <- Hn. reflexivity.
Qed.

Lemma dumps_embeds_members_witness :
  exists s,
    In ("inner", s) [("inner", JObj [("id", JInt 7)])]
    /\ exists nested,
        dumps (T_class Examples.Outer)
              (VInst "Inner" (cls_class_attrs Examples.Inner) [("id", VInt 7)])
        = Ok nested
        /\ json_dumps (json_loads nested) = Ok s.
Proof.
  apply (dumps_embeds_members
           (T_class Examples.Outer) Examples.an_outer
           [("inner", JObj [("id", JInt 7)])] "inner"
           (VInst "Inner" (cls_class_attrs Examples.Inner) [("id", VInt 7)])).
  - simpl. repeat constructor; simpl; intuition discriminate.
  - reflexivity.
  - simpl; auto 10.
  - reflexivity.
Defined.

(** ** Termination *)

(** X15: [load] terminates on every type and every JSON text: each nested
    [load] runs on a strictly smaller sub-document, so the depth of the
    text bounds the recursion, and a larger bound gives the same
    outcome. *)
Theorem load_terminates (typ : pytype) (json_str : json) :
  ((exists x, load typ json_str = Ok x)
   \/ (exists e, load typ json_str = Raise e))
  /\ forall n, json_depth json_str < n ->
               load_fuel n typ json_str = load typ json_str.
Proof.
  split.
  - destruct (load typ json_str) as [x| e |] eqn:H; eauto.
    exfalso. apply (load_fuel_total _ _ _ ltac:(
      pose proof (json_loads_depth json_str); apply Nat.lt_succ_r;
      eassumption) H).
  - intros n Hn. symmetry. apply load_with_fuel.
    pose proof (json_loads_depth json_str). lia.
Qed.

(** X16: [dumps] terminates on every object that is a finite tree of
    attributes: each nested [dumps] runs on an attribute of the object, so
    the depth of the object bounds the recursion, and a larger bound gives
    the same outcome. *)
Theorem dumps_terminates (typ : pytype) (obj : value) :
  ((exists j, dumps typ obj = Ok j)
   \/ (exists e, dumps typ obj = Raise e))
  /\ forall n, S (value_depth obj) < n ->
               _serialize n obj = dumps typ obj.
Proof.
  split.
  - destruct (dumps typ obj) as [j| e |] eqn:H; eauto.
    exfalso. apply (_serialize_total _ _ (Nat.lt_succ_diag_r _) H).
  - intros n Hn. symmetry. apply dumps_with_fuel. assumption.
Qed.
